(** * File Submitter: the remote file exchange client of [main.py]

    A shallow embedding of the three operations of the Tkinter client
    ([submit_file], [list_files], [download_file]), of its configuration
    lookup ([get_env_variable], [get_auth_token], the start-up part of
    [main]) and of the base64 transport encoding used by the upload.

    The client is a single-threaded program that mutates process-wide
    variables and widgets and talks to the outside (environment, disk,
    network, dialogs).  It is embedded as a computation in a state and
    exception monad: the state holds the globals, the rows of the
    [Treeview], and a trace of everything the client did to the outside;
    the outside itself is a record of oracles. *)

From Stdlib Require Import ZArith NArith List String Ascii Bool Lia.
From Stdlib Require Import Permutation Sorted OrderedTypeEx.
From Stdlib.Strings Require Import Byte.
Import ListNotations.

Local Open Scope string_scope.

#[local] Set Warnings "-register-all".

(** ** Base64 ([base64.b64encode], RFC 4648 with padding) *)

Module Base64.

Definition alphabet : string :=
  "ABCDEFGHIJKLMNOPQRSTUVWXYZabcdefghijklmnopqrstuvwxyz0123456789+/".

Definition pad : ascii := "="%char.

(** The character of a 6-bit value. *)
Definition char_of (sextet : N) : ascii :=
  match String.get (N.to_nat sextet) alphabet with
  | Some c => c
  | None => pad
  end.

Fixpoint index_from (i : N) (c : ascii) (table : string) : option N :=
  match table with
  | EmptyString => None
  | String c' rest =>
      if Ascii.eqb c c' then Some i else index_from (N.succ i) c rest
  end.

(** The 6-bit value of a character of the alphabet. *)
Definition index_of (c : ascii) : option N := index_from 0 c alphabet.

(** The four 6-bit values of a group of three bytes. *)
Definition sextet1 (a : N) : N := N.shiftr a 2.
Definition sextet2 (a b : N) : N := N.lor (N.shiftl (N.land a 3) 4) (N.shiftr b 4).
Definition sextet3 (b c : N) : N := N.lor (N.shiftl (N.land b 15) 2) (N.shiftr c 6).
Definition sextet4 (c : N) : N := N.land c 63.

(** [base64.b64encode(data).decode('utf-8')].  The function belongs to
    Python's standard library; it is written here after RFC 4648, section 4,
    which it implements: every three bytes give four characters; a last
    group of one or two bytes is completed with zero bits and padded with
    [=] to four characters. *)
Fixpoint b64encode (data : list byte) : string :=
  match data with
  | [] => ""
  | [a] =>
      let a := Byte.to_N a in
      String (char_of (sextet1 a)) (String (char_of (sextet2 a 0))
        (String pad (String pad "")))
  | [a; b] =>
      let a := Byte.to_N a in
      let b := Byte.to_N b in
      String (char_of (sextet1 a)) (String (char_of (sextet2 a b))
        (String (char_of (sextet3 b 0)) (String pad "")))
  | a :: b :: c :: rest =>
      let a := Byte.to_N a in
      let b := Byte.to_N b in
      let c := Byte.to_N c in
      String (char_of (sextet1 a)) (String (char_of (sextet2 a b))
        (String (char_of (sextet3 b c)) (String (char_of (sextet4 c))
          (b64encode rest))))
  end.

(** The low eight bits of a number, as a byte. *)
Definition byte_of_N (n : N) : byte :=
  match Byte.of_N (N.land n 255) with
  | Some b => b
  | None => x00
  end.

(** The three bytes of four 6-bit values. *)
Definition octet1 (s1 s2 : N) : byte := byte_of_N (N.lor (N.shiftl s1 2) (N.shiftr s2 4)).
Definition octet2 (s2 s3 : N) : byte := byte_of_N (N.lor (N.shiftl (N.land s2 15) 4) (N.shiftr s3 2)).
Definition octet3 (s3 s4 : N) : byte := byte_of_N (N.lor (N.shiftl (N.land s3 3) 6) s4).

(** Modelled from the spec: the decoder.  [main.py] only encodes (the
    download leg is raw bytes), so the inverse the specification speaks of
    is written here after RFC 4648, as a strict decoder: the text is read
    four characters at a time, padding is accepted in the last group only,
    and anything else is rejected with [None]. *)
Fixpoint b64decode (text : string) : option (list byte) :=
  match text with
  | "" => Some []
  | String c1 (String c2 (String c3 (String c4 rest))) =>
      match index_of c1, index_of c2 with
      | Some s1, Some s2 =>
          if Ascii.eqb c3 pad then
            if Ascii.eqb c4 pad then
              match rest with
              | "" => Some [octet1 s1 s2]
              | _ => None
              end
            else None
          else
            match index_of c3 with
            | Some s3 =>
                if Ascii.eqb c4 pad then
                  match rest with
                  | "" => Some [octet1 s1 s2; octet2 s2 s3]
                  | _ => None
                  end
                else
                  match index_of c4 with
                  | Some s4 =>
                      match b64decode rest with
                      | Some tail =>
                          Some (octet1 s1 s2 :: octet2 s2 s3 :: octet3 s3 s4 :: tail)
                      | None => None
                      end
                  | None => None
                  end
            | None => None
            end
      | _, _ => None
      end
  | _ => None
  end.

End Base64.

(** ** Python values

    The values the client handles are what [json.loads] builds plus the
    string and integer defaults of the code.  JSON numbers with a fraction
    are left out. *)

Inductive value : Type :=
| PNone
| PBool (b : bool)
| PInt (n : Z)
| PStr (s : string)
| PList (items : list value)
| PDict (fields : list (string * value)).

(** ** Exceptions *)

Inductive exn_class : Type :=
| RequestException          (* requests.exceptions.RequestException and its subclasses *)
| JSONDecodeError           (* json.JSONDecodeError *)
| RequestsJSONDecodeError   (* requests.exceptions.JSONDecodeError: a subclass of both *)
| KeyError
| TypeError
| AttributeError
| UnboundLocalError
| OSError
| SystemExit.               (* not an Exception *)

Definition is_RequestException (c : exn_class) : bool :=
  match c with
  | RequestException | RequestsJSONDecodeError => true
  | _ => false
  end.

Definition is_JSONDecodeError (c : exn_class) : bool :=
  match c with
  | JSONDecodeError | RequestsJSONDecodeError => true
  | _ => false
  end.

Definition is_Exception (c : exn_class) : bool :=
  match c with
  | SystemExit => false
  | _ => true
  end.

Record exn : Type := { class_of : exn_class; str_of : string }.

Inductive outcome (A : Type) : Type :=
| Return (a : A)
| Raise (e : exn).

Arguments Return {A} a.
Arguments Raise {A} e.

(** ** Messages

    An f-string before it is rendered: its literal text and the values
    interpolated into it, in order. *)

Inductive piece : Type :=
| Lit (s : string)
| Val (v : value)
| Num (n : Z)
| Err (e : exn).

Definition message : Type := list piece.

(** What the client shows: lines of the log area, console output, message
    boxes, the label of the selected file, and the traceback Tk prints for
    an exception that escapes a callback.  The time stamp [add_log] puts in
    front of a line is left out. *)
Inductive ui_event : Type :=
| Log (m : message)
| Print (m : message)
| ShowError (title : string) (m : message)
| ShowInfo (title : string) (m : message)
| FileLabel (m : message)
| Traceback (e : exn).

(** ** Paths, requests, rows *)

Record Path : Type := { path_str : string }.

Fixpoint split_path (s cur : string) : list string :=
  match s with
  | "" => [cur]
  | String c rest =>
      if Ascii.eqb c "/" then cur :: split_path rest ""
      else split_path rest (cur ++ String c "")
  end.

Definition parts (p : Path) : list string :=
  filter (fun c => negb ((c =? "") || (c =? "."))) (split_path (path_str p) "").

(** [Path.name]: the final component. *)
Definition name (p : Path) : string := last (parts p) "".

Record request : Type := {
  url : string;
  headers : list (string * string);
  json : value;
  timeout : Z
}.

Record response : Type := {
  status_code : Z;
  text : string;
  content : list byte;
  json_of : outcome value     (* response.json() *)
}.

(** One row of the [Treeview]: the [values] tuple given to [insert]. *)
Record row : Type := {
  row_name : value;
  row_size : value;
  row_last_modified : value
}.

(** ** The outside *)

Record world : Type := {
  getenv : string -> option string;                 (* os.getenv *)
  askopenfilename : string;                         (* "" when cancelled *)
  read_bytes : Path -> outcome (list byte);         (* open("rb").read() *)
  post : list request -> request -> outcome response; (* requests.post, after the earlier calls *)
  asksaveasfilename : value -> string;              (* "" when cancelled *)
  write_bytes : Path -> list byte -> outcome unit   (* open("wb").write() *)
}.

(** ** The state of the client *)

Record state : Type := {
  selected_file : option Path;
  SUPA_UNPACK_API_URL : option string;
  SUPA_MAIN_API_URL : option string;
  file_tree : list row;                 (* the children of the Treeview, in order *)
  ui : list ui_event;                   (* oldest first *)
  sent : list request;                  (* every requests.post performed *)
  save_dialogs : list value;            (* every asksaveasfilename opened *)
  written : list (Path * list byte)     (* every file written *)
}.

Definition set_selected_file (f : option Path) (st : state) : state :=
  {| selected_file := f;
     SUPA_UNPACK_API_URL := SUPA_UNPACK_API_URL st;
     SUPA_MAIN_API_URL := SUPA_MAIN_API_URL st;
     file_tree := file_tree st; ui := ui st; sent := sent st;
     save_dialogs := save_dialogs st; written := written st |}.

Definition set_SUPA_UNPACK_API_URL (u : option string) (st : state) : state :=
  {| selected_file := selected_file st;
     SUPA_UNPACK_API_URL := u;
     SUPA_MAIN_API_URL := SUPA_MAIN_API_URL st;
     file_tree := file_tree st; ui := ui st; sent := sent st;
     save_dialogs := save_dialogs st; written := written st |}.

Definition set_SUPA_MAIN_API_URL (u : option string) (st : state) : state :=
  {| selected_file := selected_file st;
     SUPA_UNPACK_API_URL := SUPA_UNPACK_API_URL st;
     SUPA_MAIN_API_URL := u;
     file_tree := file_tree st; ui := ui st; sent := sent st;
     save_dialogs := save_dialogs st; written := written st |}.

Definition set_file_tree (t : list row) (st : state) : state :=
  {| selected_file := selected_file st;
     SUPA_UNPACK_API_URL := SUPA_UNPACK_API_URL st;
     SUPA_MAIN_API_URL := SUPA_MAIN_API_URL st;
     file_tree := t; ui := ui st; sent := sent st;
     save_dialogs := save_dialogs st; written := written st |}.

Definition add_ui (e : ui_event) (st : state) : state :=
  {| selected_file := selected_file st;
     SUPA_UNPACK_API_URL := SUPA_UNPACK_API_URL st;
     SUPA_MAIN_API_URL := SUPA_MAIN_API_URL st;
     file_tree := file_tree st; ui := ui st ++ [e]; sent := sent st;
     save_dialogs := save_dialogs st; written := written st |}.

Definition add_sent (r : request) (st : state) : state :=
  {| selected_file := selected_file st;
     SUPA_UNPACK_API_URL := SUPA_UNPACK_API_URL st;
     SUPA_MAIN_API_URL := SUPA_MAIN_API_URL st;
     file_tree := file_tree st; ui := ui st; sent := sent st ++ [r];
     save_dialogs := save_dialogs st; written := written st |}.

Definition add_save_dialog (v : value) (st : state) : state :=
  {| selected_file := selected_file st;
     SUPA_UNPACK_API_URL := SUPA_UNPACK_API_URL st;
     SUPA_MAIN_API_URL := SUPA_MAIN_API_URL st;
     file_tree := file_tree st; ui := ui st; sent := sent st;
     save_dialogs := save_dialogs st ++ [v]; written := written st |}.

Definition add_written (p : Path) (data : list byte) (st : state) : state :=
  {| selected_file := selected_file st;
     SUPA_UNPACK_API_URL := SUPA_UNPACK_API_URL st;
     SUPA_MAIN_API_URL := SUPA_MAIN_API_URL st;
     file_tree := file_tree st; ui := ui st; sent := sent st;
     save_dialogs := save_dialogs st; written := written st ++ [(p, data)] |}.

(** The module-level values before [main] runs. *)
Definition initial_state : state :=
  {| selected_file := None; SUPA_UNPACK_API_URL := None; SUPA_MAIN_API_URL := None;
     file_tree := []; ui := []; sent := []; save_dialogs := []; written := [] |}.

(** ** The monad: state that survives a raised exception *)

Definition M (A : Type) : Type := state -> outcome A * state.

Definition ret {A : Type} (a : A) : M A := fun st => (Return a, st).

Definition raise {A : Type} (e : exn) : M A := fun st => (Raise e, st).

Definition bind {A B : Type} (m : M A) (k : A -> M B) : M B :=
  fun st =>
    match m st with
    | (Return a, st') => k a st'
    | (Raise e, st') => (Raise e, st')
    end.

Definition lift {A : Type} (o : outcome A) : M A := fun st => (o, st).

Definition gets {A : Type} (f : state -> A) : M A := fun st => (Return (f st), st).

Definition modify (f : state -> state) : M unit := fun st => (Return tt, f st).

(** [try: body except ...: handler] *)
Definition try_except {A : Type} (body : M A) (handler : exn -> M A) : M A :=
  fun st =>
    match body st with
    | (Return a, st') => (Return a, st')
    | (Raise e, st') => handler e st'
    end.

Declare Scope py_scope.
Delimit Scope py_scope with py.
Notation "x <- m ;; k" := (bind m (fun x => k))
  (at level 61, m at next level, right associativity) : py_scope.
Notation "m ;; k" := (bind m (fun _ => k))
  (at level 61, right associativity) : py_scope.
Local Open Scope py_scope.

Fixpoint for_each {A : Type} (l : list A) (body : A -> M unit) : M unit :=
  match l with
  | [] => ret tt
  | x :: rest => body x ;; for_each rest body
  end.

(** The state a computation ends in, and its result. *)
Definition exec {A : Type} (m : M A) (st : state) : state := snd (m st).
Definition result {A : Type} (m : M A) (st : state) : outcome A := fst (m st).

(** ** Python operations on values *)

Definition type_name (v : value) : string :=
  match v with
  | PNone => "NoneType"
  | PBool _ => "bool"
  | PInt _ => "int"
  | PStr _ => "str"
  | PList _ => "list"
  | PDict _ => "dict"
  end.

Fixpoint dict_lookup (d : list (string * value)) (k : string) : option value :=
  match d with
  | [] => None
  | (k', v) :: rest => if k' =? k then Some v else dict_lookup rest k
  end.

(** [v.get(k, default)] *)
Definition py_get (v : value) (k : string) (default : value) : outcome value :=
  match v with
  | PDict d =>
      match dict_lookup d k with
      | Some x => Return x
      | None => Return default
      end
  | _ => Raise {| class_of := AttributeError;
                  str_of := "'" ++ type_name v ++ "' object has no attribute 'get'" |}
  end.

(** [v[k]] for a string [k] *)
Definition py_getitem (v : value) (k : string) : outcome value :=
  match v with
  | PDict d =>
      match dict_lookup d k with
      | Some x => Return x
      | None => Raise {| class_of := KeyError; str_of := "'" ++ k ++ "'" |}
      end
  | PStr _ => Raise {| class_of := TypeError; str_of := "string indices must be integers" |}
  | PList _ => Raise {| class_of := TypeError;
                        str_of := "list indices must be integers or slices, not str" |}
  | _ => Raise {| class_of := TypeError;
                  str_of := "'" ++ type_name v ++ "' object is not subscriptable" |}
  end.

(** Iterating over [v]: a dictionary gives its keys, a string its
    characters. *)
Definition py_iter (v : value) : outcome (list value) :=
  match v with
  | PList items => Return items
  | PDict d => Return (map (fun kv => PStr (fst kv)) d)
  | PStr s => Return (map (fun c => PStr (String c "")) (list_ascii_of_string s))
  | _ => Raise {| class_of := TypeError;
                  str_of := "'" ++ type_name v ++ "' object is not iterable" |}
  end.

(** [not v] *)
Definition py_not (v : value) : bool :=
  match v with
  | PNone => true
  | PBool b => negb b
  | PInt n => (n =? 0)%Z
  | PStr s => s =? ""
  | PList items => match items with [] => true | _ => false end
  | PDict d => match d with [] => true | _ => false end
  end.

(** [not value] for an [Optional[str]] *)
Definition not_str (value : option string) : bool :=
  match value with
  | None => true
  | Some s => s =? ""
  end.

Definition is_None {A : Type} (o : option A) : bool :=
  match o with
  | None => true
  | Some _ => false
  end.

Definition newline : string := String (ascii_of_nat 10) "".

(** The [values] of the row of one item of the listing:
    [file_item.get('name', 'N/A')], [file_item.get('metadata', {}).get('size', 0)]
    and [file_item.get('metadata', {}).get('lastModified', 'N/A')]. *)
Definition file_item_values (file_item : value) : outcome row :=
  match py_get file_item "name" (PStr "N/A") with
  | Raise e => Raise e
  | Return file_name =>
      match py_get file_item "metadata" (PDict []) with
      | Raise e => Raise e
      | Return metadata =>
          match py_get metadata "size" (PInt 0) with
          | Raise e => Raise e
          | Return file_size =>
              match py_get metadata "lastModified" (PStr "N/A") with
              | Raise e => Raise e
              | Return last_modified =>
                  Return {| row_name := file_name; row_size := file_size;
                            row_last_modified := last_modified |}
              end
          end
      end
  end.

(** ** The client *)

Section Client.

(** [str.lower].  Python lowers every cased character of Unicode; the
    client is embedded over any such function, and the examples take
    [ascii_lower].  Strings are the byte strings of their UTF-8 encoding,
    whose order by bytes is the order of Python by code points. *)
Variable lower : string -> string.

Variable w : world.

(** *** Helpers *)

Definition add_log (m : message) : M unit := modify (add_ui (Log m)).
Definition print (m : message) : M unit := modify (add_ui (Print m)).
Definition showerror (title : string) (m : message) : M unit := modify (add_ui (ShowError title m)).
Definition showinfo (title : string) (m : message) : M unit := modify (add_ui (ShowInfo title m)).

(** [requests.post(url, headers=headers, json=data, timeout=t)] *)
Definition requests_post (u : string) (h : list (string * string)) (data : value) (t : Z)
  : M response :=
  fun st =>
    let req := {| url := u; headers := h; json := data; timeout := t |} in
    (post w (sent st) req, add_sent req st).

Definition get_env_variable (var_name error_message : string) : M (option string) :=
  let value := getenv w var_name in
  if not_str value then
    add_log [Lit error_message] ;;
    showerror "Configuration Error" [Lit error_message] ;;
    ret None
  else ret value.

Definition get_auth_token : M (option string) :=
  get_env_variable "SUPA_AUTH_TOKEN"
    "Error: Authorization token not found in environment variables!".

Definition auth_headers (auth_token : string) : list (string * string) :=
  [("Authorization", "Bearer " ++ auth_token); ("Content-Type", "application/json")].

(** *** choose_file *)

Definition choose_file : M unit :=
  let file_path_str := askopenfilename w in
  if negb (file_path_str =? "") then
    let f := {| path_str := file_path_str |} in
    modify (set_selected_file (Some f)) ;;
    modify (add_ui (FileLabel [Lit "Selected: "; Lit (name f)])) ;;
    add_log [Lit "Selected file: "; Lit (path_str f)]
  else
    modify (set_selected_file None) ;;
    modify (add_ui (FileLabel [Lit "No file selected"])) ;;
    add_log [Lit "No file selected"].

(** *** list_files *)

(** The key of [sorted]: [lambda f: f.get('name', '').lower()] *)
Definition sort_key (f : value) : outcome string :=
  match py_get f "name" (PStr "") with
  | Return (PStr s) => Return (lower s)
  | Return v => Raise {| class_of := AttributeError;
                         str_of := "'" ++ type_name v ++ "' object has no attribute 'lower'" |}
  | Raise e => Raise e
  end.

(** [sorted] computes the key of every element first, in order. *)
Fixpoint keyed (key : value -> outcome string) (items : list value)
  : outcome (list (string * value)) :=
  match items with
  | [] => Return []
  | x :: rest =>
      match key x with
      | Raise e => Raise e
      | Return k =>
          match keyed key rest with
          | Raise e => Raise e
          | Return t => Return ((k, x) :: t)
          end
      end
  end.

(** An element goes in front of the first element whose key is not
    smaller, so that equal keys keep their order. *)
Fixpoint insert_keyed (x : string * value) (l : list (string * value))
  : list (string * value) :=
  match l with
  | [] => [x]
  | y :: rest =>
      if String.leb (fst x) (fst y) then x :: y :: rest
      else y :: insert_keyed x rest
  end.

Definition sort_keyed (l : list (string * value)) : list (string * value) :=
  fold_right insert_keyed [] l.

(** [sorted(iterable, key=key)]: a stable sort by the keys. *)
Definition sorted (iterable : value) (key : value -> outcome string)
  : outcome (list value) :=
  match py_iter iterable with
  | Raise e => Raise e
  | Return items =>
      match keyed key items with
      | Raise e => Raise e
      | Return ks => Return (map snd (sort_keyed ks))
      end
  end.

(** The body of the loop that fills the tree: the three values are read
    from the item, then the row is appended. *)
Definition insert_file_item (file_item : value) : M unit :=
  values <- lift (file_item_values file_item) ;;
  modify (fun st => set_file_tree (file_tree st ++ [values]) st).

(** The [except] clauses of [list_files]; [response] is the local variable
    of that name, [None] while it is not bound. *)
Definition list_files_except (response : option response) (e : exn) : M unit :=
  if is_RequestException (class_of e) then
    let error_message := [Lit "Network or API error during file listing: "; Err e] in
    add_log error_message ;;
    showerror "Network Error" error_message
  else if is_JSONDecodeError (class_of e) then
    match response with
    | Some r =>
        let error_message :=
          [Lit "Failed to parse JSON response from API. Response: "; Lit (text r)] in
        add_log error_message ;;
        showerror "API Error" [Lit "Invalid JSON response from server."]
    | None =>
        raise {| class_of := UnboundLocalError;
                 str_of := "cannot access local variable 'response'" |}
    end
  else if is_Exception (class_of e) then
    let error_message := [Lit "An unexpected error occurred during file listing: "; Err e] in
    add_log error_message ;;
    showerror "Error" error_message
  else raise e.

(** What [list_files] does with the response once it has one. *)
Definition list_files_response (response : response) : M unit :=
  if (status_code response =? 200)%Z then
    response_data <- lift (json_of response) ;;
    msg <- lift (py_getitem response_data "message") ;;
    add_log [Val msg] ;;
    modify (set_file_tree []) ;;
    files <- lift (py_get response_data "files" (PList [])) ;;
    files_to_display <- lift (sorted files sort_key) ;;
    for_each files_to_display insert_file_item ;;
    count <- lift (py_get response_data "count" (PInt 0)) ;;
    add_log [Lit "Retrieved "; Val count; Lit " files."]
  else
    let error_message :=
      [Lit "Failed to list files:"; Lit newline; Lit "Status Code: ";
       Num (status_code response); Lit newline; Lit "Response: "; Lit (text response)] in
    add_log error_message ;;
    showerror "Error" error_message.

Definition list_request (u auth_token : string) : request :=
  {| url := u; headers := auth_headers auth_token;
     json := PDict [("cmd", PStr "list")]; timeout := 30 |}.

(** The [try] block is one block in the source; it is written here in two
    parts so that the [except] clauses see [response] once it is bound.
    An exception the clauses do not take leaves both parts unchanged. *)
Definition list_files : M unit :=
  u <- gets SUPA_UNPACK_API_URL ;;
  match u with
  | None =>
      showerror "Configuration Error"
        [Lit "API URL not configured. Please set SUPA_UNPACK_API_URL."] ;;
      add_log [Lit "Error: SUPA_UNPACK_API_URL is not set."]
  | Some u =>
      try_except
        (add_log [Lit "Retrieving list of files..."] ;;
         auth_token <- get_auth_token ;;
         match auth_token with
         | None => ret tt
         | Some auth_token =>
             if auth_token =? "" then ret tt else
             response <- requests_post u (auth_headers auth_token)
                           (PDict [("cmd", PStr "list")]) 30 ;;
             try_except (list_files_response response)
                        (list_files_except (Some response))
         end)
        (list_files_except None)
  end.

(** *** submit_file *)

Definition submit_file_except (e : exn) : M unit :=
  if is_RequestException (class_of e) then
    let error_message := [Lit "Network or API error during submission: "; Err e] in
    add_log error_message ;;
    showerror "Network Error" error_message
  else if is_Exception (class_of e) then
    let error_message :=
      [Lit "An unexpected error occurred during file submission: "; Err e] in
    add_log error_message ;;
    showerror "Error" error_message
  else raise e.

Definition submit_request (u auth_token encoded_file filename : string) : request :=
  {| url := u; headers := auth_headers auth_token;
     json := PDict [("input", PStr encoded_file); ("filename", PStr filename)];
     timeout := 30 |}.

Definition submit_file : M unit :=
  sel <- gets selected_file ;;
  match sel with
  | None =>
      showerror "Error" [Lit "No file selected!"] ;;
      add_log [Lit "Error: No file selected!"]
  | Some selected =>
      u <- gets SUPA_UNPACK_API_URL ;;
      match u with
      | None =>
          showerror "Configuration Error"
            [Lit "API URL not configured. Please set SUPA_UNPACK_API_URL."] ;;
          add_log [Lit "Error: SUPA_UNPACK_API_URL is not set."]
      | Some u =>
          try_except
            (add_log [Lit "Preparing to submit file: "; Lit (name selected); Lit "..."] ;;
             file_content <- lift (read_bytes w selected) ;;
             let encoded_file := Base64.b64encode file_content in
             let filename := name selected in
             auth_token <- get_auth_token ;;
             match auth_token with
             | None => ret tt
             | Some auth_token =>
                 if auth_token =? "" then ret tt else
                 response <- requests_post u (auth_headers auth_token)
                               (PDict [("input", PStr encoded_file);
                                       ("filename", PStr filename)]) 30 ;;
                 if (status_code response =? 200)%Z then
                   add_log [Lit "File submitted successfully!"] ;;
                   add_log [Lit "Response: "; Lit (text response)] ;;
                   showinfo "Success" [Lit "File submitted successfully!"] ;;
                   list_files
                 else
                   let error_message :=
                     [Lit "Failed to submit file:"; Lit newline; Lit "Status Code: ";
                      Num (status_code response); Lit newline; Lit "Response: ";
                      Lit (text response)] in
                   add_log error_message ;;
                   showerror "Error" error_message
             end)
            submit_file_except
      end
  end.

(** *** download_file *)

(** The item under the pointer: [event] is the position of the row that
    [file_tree.identify] finds, [None] when the click hits no row.  The row
    is taken as [file_tree.item] gives it. *)
Definition identify (tree : list row) (event : option nat) : option row :=
  match event with
  | None => None
  | Some i => nth_error tree i
  end.

Definition download_file_except (e : exn) : M unit :=
  if is_RequestException (class_of e) then
    let error_message := [Lit "Network or API error during download: "; Err e] in
    add_log error_message ;;
    showerror "Network Error" error_message
  else if is_Exception (class_of e) then
    let error_message := [Lit "An unexpected error occurred during download: "; Err e] in
    add_log error_message ;;
    showerror "Error" error_message
  else raise e.

Definition download_request (u auth_token : string) (filename : value) : request :=
  {| url := u; headers := auth_headers auth_token;
     json := PDict [("download", filename)]; timeout := 60 |}.

Definition download_file (event : option nat) : M unit :=
  tree <- gets file_tree ;;
  match identify tree event with
  | None => ret tt
  | Some item =>
      let filename := row_name item in
      if py_not filename then add_log [Lit "No file selected for download."]
      else
        u <- gets SUPA_MAIN_API_URL ;;
        match u with
        | None =>
            showerror "Configuration Error"
              [Lit "API URL not configured. Please set SUPA_MAIN_API_URL."] ;;
            add_log [Lit "Error: SUPA_MAIN_API_URL is not set."]
        | Some u =>
            add_log [Lit "Downloading file: "; Val filename] ;;
            try_except
              (auth_token <- get_auth_token ;;
               match auth_token with
               | None => ret tt
               | Some auth_token =>
                   if auth_token =? "" then ret tt else
                   response <- requests_post u (auth_headers auth_token)
                                 (PDict [("download", filename)]) 60 ;;
                   if (status_code response =? 200)%Z then
                     let file_content := content response in
                     modify (add_save_dialog filename) ;;
                     let save_path_str := asksaveasfilename w filename in
                     if negb (save_path_str =? "") then
                       let save_path := {| path_str := save_path_str |} in
                       lift (write_bytes w save_path file_content) ;;
                       modify (add_written save_path file_content) ;;
                       add_log [Lit "File '"; Val filename;
                                Lit "' downloaded and saved to "; Lit save_path_str;
                                Lit "."] ;;
                       showinfo "Success" [Lit "File saved to "; Lit save_path_str]
                     else add_log [Lit "Download cancelled."]
                   else if (status_code response =? 404)%Z then
                     let error_message :=
                       [Lit "File '"; Val filename; Lit "' not found on the server."] in
                     add_log error_message ;;
                     showerror "Error" error_message
                   else
                     let error_message :=
                       [Lit "Failed to download file:"; Lit newline; Lit "Status Code: ";
                        Num (status_code response); Lit newline; Lit "Response: ";
                        Lit (text response)] in
                     add_log error_message ;;
                     showerror "Error" error_message
               end)
              download_file_except
        end
  end.

(** *** main: loading the configuration, then the event loop *)

Definition _initial_get_env_variable (var_name error_message : string)
  : M (option string) :=
  let value := getenv w var_name in
  if not_str value then
    print [Lit error_message; Lit " (via console)"] ;;
    showerror "Configuration Error" [Lit error_message] ;;
    ret None
  else ret value.

Definition set_or_not (o : option string) : string :=
  if not_str o then "Not Set (Error)" else "Set".

(** [main] up to [root.mainloop()], without the layout of the widgets. *)
Definition main : M unit :=
  modify (set_selected_file None) ;;
  print [Lit "Loading environment variables..."] ;;
  unpack <- _initial_get_env_variable "SUPA_UNPACK_API_URL"
              ("Error: SUPA_UNPACK_API_URL environment variable not set. " ++
               "Example: https://cc.supabase.co/functions/v1/super-worker/unpack?code=SGVsbG8K") ;;
  modify (set_SUPA_UNPACK_API_URL unpack) ;;
  main_url <- _initial_get_env_variable "SUPA_MAIN_API_URL"
                ("Error: SUPA_MAIN_API_URL environment variable not set. " ++
                 "Example: https://cc.supabase.co/functions/v1/super-worker") ;;
  modify (set_SUPA_MAIN_API_URL main_url) ;;
  auth_token_check <- _initial_get_env_variable "SUPA_AUTH_TOKEN"
    "Error: Authorization token (SUPA_AUTH_TOKEN) not found in environment variables!" ;;
  if is_None unpack || is_None main_url || is_None auth_token_check then
    showerror "Configuration Error"
      [Lit "Application URLs or Token not fully configured. Exiting."] ;;
    raise {| class_of := SystemExit; str_of := "1" |}
  else
    add_log [Lit "Application initialized. Configuration loaded."] ;;
    add_log [Lit "SUPA_UNPACK_API_URL: "; Lit (set_or_not unpack)] ;;
    add_log [Lit "SUPA_MAIN_API_URL: "; Lit (set_or_not main_url)] ;;
    add_log [Lit "SUPA_AUTH_TOKEN: "; Lit (set_or_not auth_token_check)] ;;
    modify (set_file_tree []).

(** What the user does in the window. *)
Inductive action : Type :=
| ChooseFile
| SubmitFile
| RefreshFileList
| DoubleClick (event : option nat).

Definition callback (a : action) : M unit :=
  match a with
  | ChooseFile => choose_file
  | SubmitFile => submit_file
  | RefreshFileList => list_files
  | DoubleClick event => download_file event
  end.

(** A callback as Tk calls it: an exception that escapes is reported and
    the loop goes on, except [SystemExit]. *)
Definition reported_callback (a : action) : M unit :=
  try_except (callback a)
    (fun e =>
       if is_Exception (class_of e) then modify (add_ui (Traceback e))
       else raise e).

(** [root.mainloop()] over the actions of one session. *)
Fixpoint mainloop (actions : list action) : M unit :=
  match actions with
  | [] => ret tt
  | a :: rest => reported_callback a ;; mainloop rest
  end.

Definition program (actions : list action) : M unit :=
  main ;; mainloop actions.

End Client.

(** [str.lower] on ASCII letters, for the examples. *)
Definition ascii_lower_char (c : ascii) : ascii :=
  let n := nat_of_ascii c in
  if (65 <=? n)%nat && (n <=? 90)%nat then ascii_of_nat (n + 32) else c.

Fixpoint ascii_lower (s : string) : string :=
  match s with
  | "" => ""
  | String c rest => String (ascii_lower_char c) (ascii_lower rest)
  end.

(** ** Vocabulary of the properties *)

(** The name of an entry of the listing, as the sort key reads it. *)
Definition name_of (f : value) : string :=
  match py_get f "name" (PStr "") with
  | Return (PStr s) => s
  | _ => ""
  end.

(** An entry of the listing in the shape of the wire protocol: an object
    with a string [name], whose [metadata], when present, is an object. *)
Definition is_entry (f : value) : bool :=
  match f with
  | PDict d =>
      match dict_lookup d "name" with
      | Some (PStr _) =>
          match dict_lookup d "metadata" with
          | None | Some (PDict _) => true
          | Some _ => false
          end
      | _ => false
      end
  | _ => false
  end.

(** [r] is the row the client shows for the entry [f]. *)
Definition is_row_of (f : value) (r : row) : Prop :=
  file_item_values f = Return r /\ row_name r = PStr (name_of f).

(** Case-insensitive order of two entries by name. *)
Definition name_le (lower : string -> string) (f g : value) : Prop :=
  String.leb (lower (name_of f)) (lower (name_of g)) = true.

(** The entries whose lowered name is [k]. *)
Definition named (lower : string -> string) (k : string) (f : value) : bool :=
  lower (name_of f) =? k.

Definition key_le (x y : string * value) : Prop := String.leb (fst x) (fst y) = true.

Definition with_key (k : string) (x : string * value) : bool := fst x =? k.

Definition decorate (lower : string -> string) (f : value) : string * value :=
  (lower (name_of f), f).

Definition decorated (lower : string -> string) (p : string * value) : Prop :=
  fst p = lower (name_of (snd p)).

Definition sorted_entries (lower : string -> string) (items : list value) : list value :=
  map snd (sort_keyed (map (decorate lower) items)).

(** A check of every number below [n]. *)
Fixpoint all_below (n : nat) (p : N -> bool) : bool :=
  match n with
  | O => true
  | S k => p (N.of_nat k) && all_below k p
  end.

(** The outside with [var] removed from the environment. *)
Definition unsetenv (var : string) (w : world) : world :=
  {| getenv := fun v => if v =? var then None else getenv w v;
     askopenfilename := askopenfilename w;
     read_bytes := read_bytes w;
     post := post w;
     asksaveasfilename := asksaveasfilename w;
     write_bytes := write_bytes w |}.


Definition token_missing (w : world) : bool := not_str (getenv w "SUPA_AUTH_TOKEN").

(** [list_files] gets a 200 whose body parses and has a [message]: the point
    from which it rebuilds the tree. *)
Definition list_accepts (w : world) (st : state) : bool :=
  match SUPA_UNPACK_API_URL st, getenv w "SUPA_AUTH_TOKEN" with
  | Some u, Some tok =>
      if tok =? "" then false
      else
        match post w (sent st) (list_request u tok) with
        | Return r =>
            (status_code r =? 200)%Z &&
            match json_of r with
            | Return data =>
                match py_getitem data "message" with
                | Return _ => true
                | Raise _ => false
                end
            | Raise _ => false
            end
        | Raise _ => false
        end
  | _, _ => false
  end.

(** The request [submit_file] sends, when it gets that far. *)
Definition submit_sends (w : world) (st : state) : option request :=
  match selected_file st, SUPA_UNPACK_API_URL st with
  | Some f, Some u =>
      match read_bytes w f, getenv w "SUPA_AUTH_TOKEN" with
      | Return file_content, Some tok =>
          if tok =? "" then None
          else Some (submit_request u tok (Base64.b64encode file_content) (name f))
      | _, _ => None
      end
  | _, _ => None
  end.

(** [submit_file] receives a 200. *)
Definition submit_ok (w : world) (st : state) : bool :=
  match submit_sends w st with
  | Some req =>
      match post w (sent st) req with
      | Return r => (status_code r =? 200)%Z
      | Raise _ => false
      end
  | None => false
  end.

(** The state in which [submit_file] calls [list_files] after the answer
    [r] to its request [req]. *)
Definition submitted (req : request) (r : response) (st : state) : state :=
  add_ui (ShowInfo "Success" [Lit "File submitted successfully!"])
    (add_ui (Log [Lit "Response: "; Lit (text r)])
      (add_ui (Log [Lit "File submitted successfully!"])
        (add_sent req
          (add_ui (Log [Lit "Preparing to submit file: ";
                        Lit (match selected_file st with Some f => name f | None => "" end);
                        Lit "..."]) st)))).

(** The operation reaches the point from which the tree is rebuilt. *)
Definition rebuilds_tree (w : world) (a : action) (st : state) : bool :=
  match a with
  | RefreshFileList => list_accepts w st
  | SubmitFile =>
      match submit_sends w st with
      | Some req => submit_ok w st && list_accepts w (add_sent req st)
      | None => false
      end
  | ChooseFile | DoubleClick _ => false
  end.

(** The endpoint of the operation or the token is missing. *)
Definition configuration_missing (w : world) (a : action) (st : state) : bool :=
  match a with
  | ChooseFile => false
  | SubmitFile | RefreshFileList => is_None (SUPA_UNPACK_API_URL st) || token_missing w
  | DoubleClick _ => is_None (SUPA_MAIN_API_URL st) || token_missing w
  end.

(** What the operation itself works on is there, so that it comes to look
    at its configuration: a selected file ([submit_file] reads it before it
    asks for the token), a row with a name under the pointer. *)
Definition has_input (w : world) (a : action) (st : state) : bool :=
  match a with
  | ChooseFile => false
  | RefreshFileList => true
  | SubmitFile =>
      match selected_file st with
      | None => false
      | Some f =>
          is_None (SUPA_UNPACK_API_URL st) ||
          match read_bytes w f with
          | Return _ => true
          | Raise _ => false
          end
      end
  | DoubleClick event =>
      match identify (file_tree st) event with
      | Some item => negb (py_not (row_name item))
      | None => false
      end
  end.



(** A request with a URL and a bearer token that are not empty. *)
Definition request_ok (r : request) : Prop :=
  url r <> "" /\ exists tok, tok <> "" /\ headers r = auth_headers tok.

Definition urls_ok (st : state) : Prop :=
  SUPA_UNPACK_API_URL st <> Some "" /\ SUPA_MAIN_API_URL st <> Some "".

Definition same_globals (st st' : state) : Prop :=
  selected_file st' = selected_file st /\
  SUPA_UNPACK_API_URL st' = SUPA_UNPACK_API_URL st /\
  SUPA_MAIN_API_URL st' = SUPA_MAIN_API_URL st.

Definition consumed (var : string) : Prop :=
  var = "SUPA_AUTH_TOKEN" \/ var = "SUPA_UNPACK_API_URL" \/ var = "SUPA_MAIN_API_URL".

(** ** Sample sessions *)

Definition sample_env (token unpack main_url : option string) : string -> option string :=
  fun v =>
    if v =? "SUPA_AUTH_TOKEN" then token
    else if v =? "SUPA_UNPACK_API_URL" then unpack
    else if v =? "SUPA_MAIN_API_URL" then main_url
    else None.

Definition unpack_url : string := "https://cc.supabase.co/functions/v1/super-worker/unpack".
Definition main_url : string := "https://cc.supabase.co/functions/v1/super-worker".

Definition configured_env : string -> option string :=
  sample_env (Some "secret") (Some unpack_url) (Some main_url).

(** Ten bytes. *)
Definition ten_bytes : list byte :=
  ["%"; "P"; "D"; "F"; "-"; "1"; "."; "4"; x0a; x0a]%byte.

Definition report_pdf : Path := {| path_str := "/home/u/Documents/report.pdf" |}.

Definition sample_world (env : string -> option string)
  (answer : list request -> request -> outcome response) : world :=
  {| getenv := env;
     askopenfilename := path_str report_pdf;
     read_bytes := fun _ => Return ten_bytes;
     post := answer;
     asksaveasfilename := fun _ => "/tmp/out.pdf";
     write_bytes := fun _ _ => Return tt |}.

Definition sample_entry (n : string) (size : Z) : value :=
  PDict [("name", PStr n);
         ("metadata", PDict [("size", PInt size); ("lastModified", PStr "2024-05-01T10:00:00Z")])].

Definition sample_row (n : string) (size : Z) : row :=
  {| row_name := PStr n; row_size := PInt size;
     row_last_modified := PStr "2024-05-01T10:00:00Z" |}.

Definition ok_json (body : string) (data : value) : response :=
  {| status_code := 200; text := body; content := []; json_of := Return data |}.

(** What [response.json()] raises for a body that is not JSON: the
    [JSONDecodeError] of [requests], which is a [RequestException] and a
    [json.JSONDecodeError]. *)
Definition not_json : exn :=
  {| class_of := RequestsJSONDecodeError;
     str_of := "Expecting value: line 1 column 1 (char 0)" |}.

Definition status_only (code : Z) (body : string) : response :=
  {| status_code := code; text := body; content := []; json_of := Raise not_json |}.

Definition listing (files : list value) : response :=
  ok_json "{...}"
    (PDict [("message", PStr "ok"); ("files", PList files);
            ("count", PInt (Z.of_nat (List.length files)))]).

(** A client that is configured, has [report.pdf] selected and shows two
    rows of an earlier listing. *)
Definition stale_state : state :=
  {| selected_file := Some report_pdf;
     SUPA_UNPACK_API_URL := Some unpack_url;
     SUPA_MAIN_API_URL := Some main_url;
     file_tree := [sample_row "old-1.txt" 1; sample_row "old-2.txt" 2];
     ui := []; sent := []; save_dialogs := []; written := [] |}.

(** The server lists three files, in this order. *)
Definition world_three_files : world :=
  sample_world configured_env
    (fun _ _ => Return (listing [sample_entry "b.txt" 1; sample_entry "A.txt" 2;
                                sample_entry "c.TXT" 3])).



(** The server answers 200 with a body that is not JSON. *)
Definition world_not_json : world :=
  sample_world configured_env (fun _ _ => Return (status_only 200 "<html>")).

(** The server answers 500. *)
Definition world_500 : world :=
  sample_world configured_env (fun _ _ => Return (status_only 500 "internal error")).

(** The server answers 404. *)
Definition world_404 : world :=
  sample_world configured_env (fun _ _ => Return (status_only 404 "no such file")).

(** The server lists one entry whose [metadata] is [null]. *)
Definition world_null_metadata : world :=
  sample_world configured_env
    (fun _ _ => Return (listing [PDict [("name", PStr "a.txt"); ("metadata", PNone)]])).

(** The server lists a good entry and one whose [metadata] is [null]. *)
Definition world_second_entry_bad : world :=
  sample_world configured_env
    (fun _ _ => Return (listing [sample_entry "a.txt" 1;
                                PDict [("name", PStr "b.txt"); ("metadata", PNone)]])).

(** The server accepts the upload and then lists the uploaded file. *)
Definition world_upload : world :=
  sample_world configured_env
    (fun earlier _ =>
       match earlier with
       | [] => Return (ok_json "stored" (PStr "stored"))
       | _ => Return (listing [sample_entry "notes.txt" 5; sample_entry "report.pdf" 10])
       end).

(** The server accepts the upload and then lists the uploaded file beside
    a folder, an entry whose [metadata] is [null]. *)
Definition world_upload_folder : world :=
  sample_world configured_env
    (fun earlier _ =>
       match earlier with
       | [] => Return (ok_json "stored" (PStr "stored"))
       | _ => Return (listing [PDict [("name", PStr "docs"); ("metadata", PNone)];
                               sample_entry "report.pdf" 10])
       end).

(** The token is set but empty. *)
Definition world_empty_token : world :=
  sample_world (sample_env (Some "") (Some unpack_url) (Some main_url))
    (fun _ _ => Return (listing [])).

(** The token is not set. *)
Definition world_no_token : world :=
  sample_world (sample_env None (Some unpack_url) (Some main_url))
    (fun _ _ => Return (listing [])).

(** The reports of [list_files]. *)
Definition retrieving : ui_event := Log [Lit "Retrieving list of files..."].



Definition unexpected_listing_error (e : exn) : message :=
  [Lit "An unexpected error occurred during file listing: "; Err e].

Definition retrieved (count : value) : ui_event :=
  Log [Lit "Retrieved "; Val count; Lit " files."].


Definition none_has_no_get : exn :=
  {| class_of := AttributeError; str_of := "'NoneType' object has no attribute 'get'" |}.

Definition exit_1 : exn := {| class_of := SystemExit; str_of := "1" |}.



(** The reports of [download_file]. *)
Definition downloading (filename : value) : ui_event :=
  Log [Lit "Downloading file: "; Val filename].

Definition download_failure_message (r : response) : message :=
  [Lit "Failed to download file:"; Lit newline; Lit "Status Code: ";
   Num (status_code r); Lit newline; Lit "Response: "; Lit (text r)].

Definition download_network_error (e : exn) : message :=
  [Lit "Network or API error during download: "; Err e].

Definition download_unexpected_error (e : exn) : message :=
  [Lit "An unexpected error occurred during download: "; Err e].

(** The server answers a download with four bytes. *)
Definition pdf_magic : list byte := [x25; x50; x44; x46]%byte.

Definition world_download : world :=
  sample_world configured_env
    (fun _ _ => Return {| status_code := 200; text := "%PDF"; content := pdf_magic;
                          json_of := Raise not_json |}).

(** The same, with a save dialog that is cancelled. *)
Definition world_download_cancelled : world :=
  {| getenv := configured_env;
     askopenfilename := "";
     read_bytes := fun _ => Return ten_bytes;
     post := post world_download;
     asksaveasfilename := fun _ => "";
     write_bytes := fun _ _ => Return tt |}.

(** The same, with a disk that refuses the write. *)
Definition disk_full : exn := {| class_of := OSError; str_of := "No space left on device" |}.

Definition world_download_disk_full : world :=
  {| getenv := configured_env;
     askopenfilename := "";
     read_bytes := fun _ => Raise disk_full;
     post := post world_download;
     asksaveasfilename := fun _ => "/tmp/out.pdf";
     write_bytes := fun _ _ => Raise disk_full |}.

(** The network is down. *)
Definition connection_refused : exn :=
  {| class_of := RequestException; str_of := "Connection refused" |}.

Definition world_offline : world :=
  sample_world configured_env (fun _ _ => Raise connection_refused).

(** The reports of [submit_file]. *)
Definition preparing (f : Path) : ui_event :=
  Log [Lit "Preparing to submit file: "; Lit (name f); Lit "..."].

Definition submit_failure_message (r : response) : message :=
  [Lit "Failed to submit file:"; Lit newline; Lit "Status Code: ";
   Num (status_code r); Lit newline; Lit "Response: "; Lit (text r)].

Definition submit_network_error (e : exn) : message :=
  [Lit "Network or API error during submission: "; Err e].

Definition submit_unexpected_error (e : exn) : message :=
  [Lit "An unexpected error occurred during file submission: "; Err e].

(** The selected file has been removed. *)
Definition file_not_found : exn :=
  {| class_of := OSError; str_of := "No such file or directory" |}.

Definition world_file_removed : world :=
  {| getenv := configured_env;
     askopenfilename := "";
     read_bytes := fun _ => Raise file_not_found;
     post := fun _ _ => Return (listing []);
     asksaveasfilename := fun _ => "";
     write_bytes := fun _ _ => Return tt |}.

(** A character of the base64 alphabet, or the padding. *)
Definition is_base64_char (c : ascii) : bool :=
  existsb (Ascii.eqb c) (list_ascii_of_string Base64.alphabet) || Ascii.eqb c Base64.pad.

(** The user cancels the file dialog. *)
Definition world_cancel_choice : world :=
  {| getenv := configured_env;
     askopenfilename := "";
     read_bytes := fun _ => Return ten_bytes;
     post := fun _ _ => Return (listing []);
     asksaveasfilename := fun _ => "";
     write_bytes := fun _ _ => Return tt |}.

(** The user picks another file. *)
Definition world_other_choice : world :=
  {| getenv := configured_env;
     askopenfilename := "/home/u/Documents/archive.zip";
     read_bytes := fun p => if path_str p =? "/home/u/Documents/archive.zip"
                            then Return ["P"; "K"]%byte else Return ten_bytes;
     post := fun _ _ => Return (status_only 500 "internal error");
     asksaveasfilename := fun _ => "";
     write_bytes := fun _ _ => Return tt |}.

Definition list_network_error (e : exn) : message :=
  [Lit "Network or API error during file listing: "; Err e].

(** An entry as [list_files] takes it without raising: an object whose
    [name], when present, is a string and whose [metadata], when present,
    is an object. *)
Definition is_listable (f : value) : bool :=
  match f with
  | PDict d =>
      match dict_lookup d "name" with
      | None | Some (PStr _) =>
          match dict_lookup d "metadata" with
          | None | Some (PDict _) => true
          | Some _ => false
          end
      | Some _ => false
      end
  | _ => false
  end.

(** What the row of an entry shows: its values, each with its default. *)
Definition shown_name (f : value) : value :=
  match py_get f "name" (PStr "N/A") with
  | Return v => v
  | Raise _ => PStr "N/A"
  end.

Definition metadata_of (f : value) : value :=
  match py_get f "metadata" (PDict []) with
  | Return v => v
  | Raise _ => PDict []
  end.

Definition shown_size (f : value) : value :=
  match py_get (metadata_of f) "size" (PInt 0) with
  | Return v => v
  | Raise _ => PInt 0
  end.

Definition shown_last_modified (f : value) : value :=
  match py_get (metadata_of f) "lastModified" (PStr "N/A") with
  | Return v => v
  | Raise _ => PStr "N/A"
  end.

Definition shown_row (f : value) : row :=
  {| row_name := shown_name f; row_size := shown_size f;
     row_last_modified := shown_last_modified f |}.

(** The server lists a file without a name or metadata between two others,
    and claims seven files. *)
Definition bare_listing : list (string * value) :=
  [("message", PStr "ok");
   ("files", PList [sample_entry "b.txt" 1; PDict []; PDict [("name", PStr "a.txt")]]);
   ("count", PInt 7)].

Definition world_bare_entry : world :=
  sample_world configured_env (fun _ _ => Return (ok_json "{...}" (PDict bare_listing))).

(** The server sends [null] for [files]. *)
Definition world_null_files : world :=
  sample_world configured_env
    (fun _ _ => Return (ok_json "{...}"
       (PDict [("message", PStr "ok"); ("files", PNone); ("count", PInt 0)]))).

Definition none_not_iterable : exn :=
  {| class_of := TypeError; str_of := "'NoneType' object is not iterable" |}.

(** The messages of [main] for the three variables. *)
Definition startup_error (var : string) : string :=
  if var =? "SUPA_UNPACK_API_URL" then
    "Error: SUPA_UNPACK_API_URL environment variable not set. " ++
    "Example: https://cc.supabase.co/functions/v1/super-worker/unpack?code=SGVsbG8K"
  else if var =? "SUPA_MAIN_API_URL" then
    "Error: SUPA_MAIN_API_URL environment variable not set. " ++
    "Example: https://cc.supabase.co/functions/v1/super-worker"
  else "Error: Authorization token (SUPA_AUTH_TOKEN) not found in environment variables!".

Definition exiting : ui_event :=
  ShowError "Configuration Error"
    [Lit "Application URLs or Token not fully configured. Exiting."].

(** What [main] writes when the configuration is complete. *)
Definition startup_log : list ui_event :=
  [Print [Lit "Loading environment variables..."];
   Log [Lit "Application initialized. Configuration loaded."];
   Log [Lit "SUPA_UNPACK_API_URL: "; Lit "Set"];
   Log [Lit "SUPA_MAIN_API_URL: "; Lit "Set"];
   Log [Lit "SUPA_AUTH_TOKEN: "; Lit "Set"]].

(** Only the main URL is set. *)
Definition world_only_main_url : world :=
  sample_world (sample_env None None (Some main_url)) (fun _ _ => Return (listing [])).

(** A request as the client addresses it: the token of the environment in
    its headers, and either the unpack URL with a timeout of 30 or the main
    URL with a timeout of 60. *)
Definition addressed (w : world) (st : state) (r : request) : Prop :=
  exists tok,
    getenv w "SUPA_AUTH_TOKEN" = Some tok /\ headers r = auth_headers tok /\
    ((SUPA_UNPACK_API_URL st = Some (url r) /\ timeout r = 30%Z) \/
     (SUPA_MAIN_API_URL st = Some (url r) /\ timeout r = 60%Z)).

(** The largest number of requests of one operation. *)
Definition most_requests (a : action) : nat :=
  match a with
  | ChooseFile => 0
  | SubmitFile => 2
  | RefreshFileList | DoubleClick _ => 1
  end.

(** The server answers 200 with an array. *)
Definition world_array_body : world :=
  sample_world configured_env (fun _ _ => Return (ok_json "[]" (PList []))).

(** The server lists a name that is a number after a good entry. *)
Definition world_numeric_name : world :=
  sample_world configured_env
    (fun _ _ => Return (listing [sample_entry "a.txt" 1; PDict [("name", PInt 7)]])).

(** ** The rows as the widget gives them back

    [file_tree.item(selected_item)] of ttk gives every value of a row back
    through [_convert_stringval]: [int(str(value))] where [int] takes the
    text, and the text itself where [int] raises.  [int] of Python is a
    parameter: it gives the integer a text reads as, and [None] where it
    raises [ValueError]. *)
Definition convert_stringval (int : string -> option Z) (s : string) : value :=
  match int s with
  | Some n => PInt n
  | None => PStr s
  end.

(** [item] can be what the widget gives back for the inserted row [r]: a
    name that was inserted as a text comes back converted.  The size and
    the date come back converted as well; [download_file] does not read
    them. *)
Definition given_back (int : string -> option Z) (r item : row) : Prop :=
  forall s, row_name r = PStr s -> row_name item = convert_stringval int s.

(** [int] on a text of decimal digits, for the examples. *)
Fixpoint digits_value (acc : Z) (s : string) : option Z :=
  match s with
  | "" => Some acc
  | String c rest =>
      let n := nat_of_ascii c in
      if (48 <=? n)%nat && (n <=? 57)%nat
      then digits_value (10 * acc + Z.of_nat (n - 48)) rest
      else None
  end.

Definition int_of_digits (s : string) : option Z :=
  match s with
  | "" => None
  | _ => digits_value 0 s
  end.

(** The server lists a file named after a year and one named 0. *)
Definition world_year_names : world :=
  sample_world configured_env
    (fun _ _ => Return (listing [sample_entry "b.txt" 1; sample_entry "2024" 2;
                                sample_entry "0" 3])).

(** The rows of that listing as the widget gives them back. *)
Definition year_rows : list row :=
  [{| row_name := PInt 0; row_size := PInt 3;
      row_last_modified := PStr "2024-05-01T10:00:00Z" |};
   {| row_name := PInt 2024; row_size := PInt 2;
      row_last_modified := PStr "2024-05-01T10:00:00Z" |};
   sample_row "b.txt" 1].

(** * Properties *)

(** ** Base64 *)

Lemma all_below_spec (n : nat) (p : N -> bool) :
  all_below n p = true -> forall k, (k < N.of_nat n)%N -> p k = true.
Proof.
  induction n as [|n IH]; simpl; intros H k Hk.
  - lia.
  - apply andb_true_iff in H. destruct H as [Hn Hrest].
    destruct (N.eq_dec k (N.of_nat n)) as [->|Hne]; [exact Hn|].
    apply IH; [exact Hrest | lia].
Qed.

Lemma to_N_lt_256 (b : byte) : (Byte.to_N b < N.of_nat 256)%N.
Proof. pose proof (Byte.to_N_bounded b). lia. Qed.

Lemma for_bytes (p : N -> bool) :
  all_below 256 p = true -> forall b : byte, p (Byte.to_N b) = true.
Proof. intros H b. apply (all_below_spec 256 p H), to_N_lt_256. Qed.

Lemma for_byte_pairs (p : N -> N -> bool) :
  all_below 256 (fun a => all_below 256 (p a)) = true ->
  forall a b : byte, p (Byte.to_N a) (Byte.to_N b) = true.
Proof.
  intros H a b.
  apply (all_below_spec 256 (p (Byte.to_N a))); [|apply to_N_lt_256].
  apply (for_bytes (fun a => all_below 256 (p a)) H).
Qed.

(** A property of one or two bytes, checked on every byte. *)
Ltac by_bytes p := apply (for_bytes p); vm_compute; reflexivity.
Ltac by_byte_pairs p := apply (for_byte_pairs p); vm_compute; reflexivity.

Section Base64Facts.

Import Base64.

Lemma index_of_char_of (s : N) : (s < 64)%N -> index_of (char_of s) = Some s.
Proof.
  intros H.
  pose (p := fun s => match index_of (char_of s) with Some i => N.eqb i s | None => false end).
  assert (E : p s = true).
  { apply (all_below_spec 64 p); [vm_compute; reflexivity | exact H]. }
  unfold p in E. destruct (index_of (char_of s)) as [i|]; [|discriminate].
  apply N.eqb_eq in E. congruence.
Qed.

Lemma char_of_not_pad (s : N) : (s < 64)%N -> Ascii.eqb (char_of s) pad = false.
Proof.
  intros H. apply negb_true_iff.
  apply (all_below_spec 64 (fun s => negb (Ascii.eqb (char_of s) pad)));
    [vm_compute; reflexivity | exact H].
Qed.

Lemma sextet1_lt (a : byte) : (sextet1 (Byte.to_N a) < 64)%N.
Proof. apply N.ltb_lt. by_bytes (fun a => sextet1 a <? 64)%N. Qed.

Lemma sextet2_lt (a b : byte) : (sextet2 (Byte.to_N a) (Byte.to_N b) < 64)%N.
Proof. apply N.ltb_lt. by_byte_pairs (fun a b => sextet2 a b <? 64)%N. Qed.

Lemma sextet3_lt (b c : byte) : (sextet3 (Byte.to_N b) (Byte.to_N c) < 64)%N.
Proof. apply N.ltb_lt. by_byte_pairs (fun b c => sextet3 b c <? 64)%N. Qed.

Lemma sextet4_lt (c : byte) : (sextet4 (Byte.to_N c) < 64)%N.
Proof. apply N.ltb_lt. by_bytes (fun c => sextet4 c <? 64)%N. Qed.

Lemma byte_of_to_N (a : byte) : byte_of_N (Byte.to_N a) = a.
Proof.
  unfold byte_of_N.
  assert (E : N.land (Byte.to_N a) 255 = Byte.to_N a).
  { apply N.eqb_eq. by_bytes (fun a => N.land a 255 =? a)%N. }
  rewrite E, Byte.of_to_N. reflexivity.
Qed.

Lemma octet1_sextets (a b : byte) :
  octet1 (sextet1 (Byte.to_N a)) (sextet2 (Byte.to_N a) (Byte.to_N b)) = a.
Proof.
  unfold octet1.
  assert (E : N.lor (N.shiftl (sextet1 (Byte.to_N a)) 2)
                (N.shiftr (sextet2 (Byte.to_N a) (Byte.to_N b)) 4) = Byte.to_N a).
  { apply N.eqb_eq.
    by_byte_pairs (fun a b => N.lor (N.shiftl (sextet1 a) 2) (N.shiftr (sextet2 a b) 4) =? a)%N. }
  rewrite E. apply byte_of_to_N.
Qed.

(** The middle byte takes its high half from the second character and its
    low half from the third. *)
Lemma octet2_sextets (a b c : byte) :
  octet2 (sextet2 (Byte.to_N a) (Byte.to_N b)) (sextet3 (Byte.to_N b) (Byte.to_N c)) = b.
Proof.
  unfold octet2.
  assert (E1 : N.land (sextet2 (Byte.to_N a) (Byte.to_N b)) 15 = N.shiftr (Byte.to_N b) 4).
  { apply N.eqb_eq. by_byte_pairs (fun a b => N.land (sextet2 a b) 15 =? N.shiftr b 4)%N. }
  assert (E2 : N.shiftr (sextet3 (Byte.to_N b) (Byte.to_N c)) 2 = N.land (Byte.to_N b) 15).
  { apply N.eqb_eq. by_byte_pairs (fun b c => N.shiftr (sextet3 b c) 2 =? N.land b 15)%N. }
  assert (E3 : N.lor (N.shiftl (N.shiftr (Byte.to_N b) 4) 4) (N.land (Byte.to_N b) 15)
               = Byte.to_N b).
  { apply N.eqb_eq. by_bytes (fun b => N.lor (N.shiftl (N.shiftr b 4) 4) (N.land b 15) =? b)%N. }
  rewrite E1, E2, E3. apply byte_of_to_N.
Qed.

Lemma octet3_sextets (b c : byte) :
  octet3 (sextet3 (Byte.to_N b) (Byte.to_N c)) (sextet4 (Byte.to_N c)) = c.
Proof.
  unfold octet3.
  assert (E : N.lor (N.shiftl (N.land (sextet3 (Byte.to_N b) (Byte.to_N c)) 3) 6)
                (sextet4 (Byte.to_N c)) = Byte.to_N c).
  { apply N.eqb_eq.
    by_byte_pairs (fun b c => N.lor (N.shiftl (N.land (sextet3 b c) 3) 6) (sextet4 c) =? c)%N. }
  rewrite E. apply byte_of_to_N.
Qed.

(** Induction over a list three elements at a time, as the encoder reads
    it. *)
Lemma list_ind3 {A : Type} (P : list A -> Prop) :
  P [] -> (forall a, P [a]) -> (forall a b, P [a; b]) ->
  (forall a b c rest, P rest -> P (a :: b :: c :: rest)) ->
  forall l, P l.
Proof.
  intros H0 H1 H2 H3.
  fix IH 1.
  intros [|a [|b [|c rest]]].
  - exact H0.
  - apply H1.
  - apply H2.
  - apply H3, IH.
Qed.

Lemma to_N_x00 : Byte.to_N x00 = 0%N.
Proof. reflexivity. Qed.

(** C5. Decoding the upload encoding of any byte string gives the byte
    string back: [b64decode (b64encode data) = data] for every [data]. *)
Theorem b64decode_b64encode (data : list byte) :
  b64decode (b64encode data) = Some data.
Proof.
  induction data as [|a|a b|a b c rest IH] using list_ind3.
  - reflexivity.
  - cbn [b64encode b64decode].
    rewrite <- to_N_x00.
    rewrite (index_of_char_of _ (sextet1_lt a)), (index_of_char_of _ (sextet2_lt a x00)).
    rewrite Ascii.eqb_refl. rewrite octet1_sextets. reflexivity.
  - cbn [b64encode b64decode].
    rewrite <- to_N_x00.
    rewrite (index_of_char_of _ (sextet1_lt a)), (index_of_char_of _ (sextet2_lt a b)).
    rewrite (char_of_not_pad _ (sextet3_lt b x00)).
    rewrite (index_of_char_of _ (sextet3_lt b x00)).
    rewrite Ascii.eqb_refl, octet1_sextets, octet2_sextets. reflexivity.
  - cbn [b64encode b64decode].
    rewrite (index_of_char_of _ (sextet1_lt a)), (index_of_char_of _ (sextet2_lt a b)).
    rewrite (char_of_not_pad _ (sextet3_lt b c)), (index_of_char_of _ (sextet3_lt b c)).
    rewrite (char_of_not_pad _ (sextet4_lt c)), (index_of_char_of _ (sextet4_lt c)).
    rewrite IH, octet1_sextets, octet2_sextets, octet3_sextets. reflexivity.
Qed.

(** Four characters for every three bytes, the last group padded. *)
Lemma length_b64encode (data : list byte) :
  String.length (b64encode data) = 4 * ((List.length data + 2) / 3).
Proof.
  induction data as [|a|a b|a b c rest IH] using list_ind3.
  - reflexivity.
  - reflexivity.
  - reflexivity.
  - cbn [b64encode String.length List.length]. rewrite IH.
    replace (S (S (S (List.length rest))) + 2) with (List.length rest + 2 + 1 * 3) by lia.
    rewrite Nat.div_add by lia. lia.
Qed.

End Base64Facts.

Example b64encode_Man : Base64.b64encode ["M"; "a"; "n"]%byte = "TWFu".
Proof. reflexivity. Qed.

Example b64encode_Ma : Base64.b64encode ["M"; "a"]%byte = "TWE=".
Proof. reflexivity. Qed.

Example b64encode_M : Base64.b64encode ["M"]%byte = "TQ==".
Proof. reflexivity. Qed.

Example b64decode_TWE : Base64.b64decode "TWE=" = Some ["M"; "a"]%byte.
Proof. reflexivity. Qed.

Example b64decode_rejects_short : Base64.b64decode "TWE" = None.
Proof. reflexivity. Qed.

(** The test vectors of RFC 4648, and bytes above 127. *)
Example b64encode_rfc4648 :
  Base64.b64encode [] = "" /\
  Base64.b64encode ["f"]%byte = "Zg==" /\
  Base64.b64encode ["f"; "o"]%byte = "Zm8=" /\
  Base64.b64encode ["f"; "o"; "o"]%byte = "Zm9v" /\
  Base64.b64encode ["f"; "o"; "o"; "b"]%byte = "Zm9vYg==" /\
  Base64.b64encode ["f"; "o"; "o"; "b"; "a"]%byte = "Zm9vYmE=" /\
  Base64.b64encode ["f"; "o"; "o"; "b"; "a"; "r"]%byte = "Zm9vYmFy" /\
  Base64.b64encode [xff; xfe; xfd]%byte = "//79" /\
  Base64.b64encode [xfb]%byte = "+w==".
Proof. repeat split. Qed.

(** ** The order of strings *)

Lemma leb_refl (s : string) : String.leb s s = true.
Proof. destruct (String.leb_total s s); assumption. Qed.

Lemma leb_trans (a b c : string) :
  String.leb a b = true -> String.leb b c = true -> String.leb a c = true.
Proof.
  unfold String.leb. intros Hab Hbc.
  destruct (String.compare a b) eqn:Eab; try discriminate;
  destruct (String.compare b c) eqn:Ebc; try discriminate.
  - apply String.compare_eq_iff in Eab. subst. rewrite Ebc. reflexivity.
  - apply String.compare_eq_iff in Eab. subst. rewrite Ebc. reflexivity.
  - apply String.compare_eq_iff in Ebc. subst. rewrite Eab. reflexivity.
  - apply String_as_OT.cmp_lt in Eab, Ebc.
    pose proof (String_as_OT.lt_trans _ _ _ Eab Ebc) as Hac.
    apply String_as_OT.cmp_lt in Hac. unfold String_as_OT.cmp in Hac.
    rewrite Hac. reflexivity.
Qed.

Lemma leb_false_flip (a b : string) : String.leb a b = false -> String.leb b a = true.
Proof. intros H. destruct (String.leb_total a b) as [E|E]; congruence. Qed.

(** ** [sorted]: a stable sort *)

Lemma insert_keyed_perm x l : Permutation (insert_keyed x l) (x :: l).
Proof.
  induction l as [|y l IH]; simpl.
  - reflexivity.
  - destruct (String.leb (fst x) (fst y)).
    + reflexivity.
    + rewrite IH. apply perm_swap.
Qed.

Lemma sort_keyed_perm l : Permutation (sort_keyed l) l.
Proof.
  induction l as [|x l IH]; simpl.
  - reflexivity.
  - rewrite insert_keyed_perm. apply perm_skip, IH.
Qed.

Lemma insert_keyed_sorted x l :
  StronglySorted key_le l -> StronglySorted key_le (insert_keyed x l).
Proof.
  induction 1 as [|y l Hs IH Hall]; simpl.
  - constructor; constructor.
  - destruct (String.leb (fst x) (fst y)) eqn:E.
    + constructor.
      * constructor; assumption.
      * constructor; [exact E|].
        eapply Forall_impl; [|exact Hall].
        intros z Hz. unfold key_le in *. eapply leb_trans; eassumption.
    + constructor; [exact IH|].
      eapply Permutation_Forall; [symmetry; apply insert_keyed_perm|].
      constructor; [|exact Hall].
      apply leb_false_flip, E.
Qed.

Lemma sort_keyed_sorted l : StronglySorted key_le (sort_keyed l).
Proof.
  induction l as [|x l IH]; simpl.
  - constructor.
  - apply insert_keyed_sorted, IH.
Qed.

(** The elements that are passed over on the way in have a strictly
    smaller key, so an element stays behind none of its own key. *)
Lemma insert_keyed_stable k x l :
  filter (with_key k) (insert_keyed x l) =
  if with_key k x then x :: filter (with_key k) l else filter (with_key k) l.
Proof.
  induction l as [|y l IH]; simpl.
  - reflexivity.
  - destruct (String.leb (fst x) (fst y)) eqn:E; simpl.
    + reflexivity.
    + rewrite IH. unfold with_key.
      destruct (fst x =? k) eqn:Ex; [|reflexivity].
      apply String.eqb_eq in Ex. subst k.
      destruct (fst y =? fst x) eqn:Ey; [|reflexivity].
      apply String.eqb_eq in Ey. rewrite Ey, leb_refl in E. discriminate.
Qed.

Lemma sort_keyed_stable k l :
  filter (with_key k) (sort_keyed l) = filter (with_key k) l.
Proof.
  induction l as [|x l IH]; simpl.
  - reflexivity.
  - rewrite insert_keyed_stable, IH. reflexivity.
Qed.

Section SortedEntries.

Variable lower : string -> string.

Lemma sort_key_entry f : is_entry f = true -> sort_key lower f = Return (lower (name_of f)).
Proof.
  destruct f as [| | | | |d]; try discriminate. unfold is_entry, sort_key, name_of. simpl.
  destruct (dict_lookup d "name") as [[| | |s| |]|]; try discriminate. reflexivity.
Qed.

Lemma keyed_entries items :
  forallb is_entry items = true ->
  keyed (sort_key lower) items = Return (map (decorate lower) items).
Proof.
  induction items as [|f items IH]; simpl; intros H.
  - reflexivity.
  - apply andb_true_iff in H. destruct H as [Hf Hrest].
    rewrite (sort_key_entry f Hf), (IH Hrest). reflexivity.
Qed.

Lemma file_item_values_entry f :
  is_entry f = true ->
  exists size last_modified,
    file_item_values f =
    Return {| row_name := PStr (name_of f); row_size := size;
              row_last_modified := last_modified |}.
Proof.
  destruct f as [| | | | |d]; try discriminate.
  unfold is_entry, file_item_values, name_of. simpl.
  destruct (dict_lookup d "name") as [[| | |s| |]|]; try discriminate.
  destruct (dict_lookup d "metadata") as [[| | | | |md]|]; try discriminate; intros _; simpl.
  - destruct (dict_lookup md "size"), (dict_lookup md "lastModified"); eauto.
  - eauto.
Qed.

Lemma decorated_map items : Forall (decorated lower) (map (decorate lower) items).
Proof.
  apply Forall_forall. intros p Hp. apply in_map_iff in Hp. destruct Hp as [f [<- _]].
  reflexivity.
Qed.

Lemma decorated_sort_keyed items :
  Forall (decorated lower) (sort_keyed (map (decorate lower) items)).
Proof.
  eapply Permutation_Forall; [symmetry; apply sort_keyed_perm | apply decorated_map].
Qed.

Lemma sorted_map_snd l :
  Forall (decorated lower) l -> StronglySorted key_le l ->
  StronglySorted (name_le lower) (map snd l).
Proof.
  intros Hd Hs. induction Hs as [|p l Hs IH Hall]; simpl.
  - constructor.
  - inversion Hd as [|? ? Hp Hl]; subst.
    constructor; [apply IH, Hl|].
    apply Forall_map. rewrite Forall_forall in *. intros q Hq.
    specialize (Hall q Hq). specialize (Hl q Hq).
    unfold name_le, key_le, decorated in *. rewrite <- Hp, <- Hl. exact Hall.
Qed.

Lemma filter_map_snd k l :
  Forall (decorated lower) l ->
  filter (named lower k) (map snd l) = map snd (filter (with_key k) l).
Proof.
  induction 1 as [|p l Hp Hl IH]; simpl.
  - reflexivity.
  - unfold with_key at 1, named at 1. rewrite Hp, IH.
    destruct (lower (name_of (snd p)) =? k); reflexivity.
Qed.

Lemma map_snd_decorate items : map snd (map (decorate lower) items) = items.
Proof. rewrite map_map. simpl. apply map_id. Qed.

Lemma sorted_entries_perm items : Permutation items (sorted_entries lower items).
Proof.
  unfold sorted_entries. rewrite <- (map_snd_decorate items) at 1.
  apply Permutation_map. symmetry. apply sort_keyed_perm.
Qed.

Lemma sorted_entries_sorted items :
  StronglySorted (name_le lower) (sorted_entries lower items).
Proof. apply sorted_map_snd; [apply decorated_sort_keyed | apply sort_keyed_sorted]. Qed.

Lemma sorted_entries_stable k items :
  filter (named lower k) (sorted_entries lower items) = filter (named lower k) items.
Proof.
  unfold sorted_entries. rewrite filter_map_snd by apply decorated_sort_keyed.
  rewrite sort_keyed_stable.
  rewrite <- filter_map_snd, map_snd_decorate; [reflexivity | apply decorated_map].
Qed.

Lemma sorted_entries_ok items :
  forallb is_entry items = true ->
  sorted (PList items) (sort_key lower) = Return (sorted_entries lower items).
Proof. intros H. unfold sorted. simpl. rewrite (keyed_entries items H). reflexivity. Qed.

Lemma rows_of_entries l :
  Forall (fun f => is_entry f = true) l -> exists rows, Forall2 is_row_of l rows.
Proof.
  induction 1 as [|f l Hf Hl [rows IH]].
  - exists []. constructor.
  - destruct (file_item_values_entry f Hf) as [sz [lm E]].
    eexists (_ :: rows). constructor; [split; [exact E | reflexivity] | exact IH].
Qed.

Lemma rows_of_sorted_entries items :
  forallb is_entry items = true ->
  exists rows, Forall2 is_row_of (sorted_entries lower items) rows.
Proof.
  intros H. apply rows_of_entries.
  eapply Permutation_Forall; [apply sorted_entries_perm|].
  apply Forall_forall. intros f Hf. rewrite forallb_forall in H. auto.
Qed.

End SortedEntries.

(** ** Filling the tree *)

Lemma for_each_insert l rows st :
  Forall2 is_row_of l rows ->
  for_each l insert_file_item st = (Return tt, set_file_tree (file_tree st ++ rows) st).
Proof.
  intros H. revert st. induction H as [|f r l rows [Hf _] Hl IH]; intros st.
  - simpl. unfold ret. rewrite app_nil_r. destruct st; reflexivity.
  - simpl. unfold bind at 1. unfold insert_file_item at 1. unfold bind, lift, modify.
    rewrite Hf. rewrite IH. simpl. rewrite <- app_assoc. reflexivity.
Qed.

(** Whatever the items are, the loop touches the tree only, and only by
    appending rows; which rows, and whether it raises, is decided by the
    items alone. *)
Lemma for_each_insert_any l :
  exists o rows, forall st,
    for_each l insert_file_item st = (o, set_file_tree (file_tree st ++ rows) st).
Proof.
  induction l as [|f l [o [rows IH]]].
  - exists (Return tt), []. intros st. simpl. unfold ret. rewrite app_nil_r.
    destruct st; reflexivity.
  - destruct (file_item_values f) as [r|e] eqn:Ef.
    + exists o, (r :: rows). intros st.
      simpl. unfold bind at 1. unfold insert_file_item at 1. unfold bind, lift, modify.
      rewrite Ef. cbv beta iota. rewrite IH. simpl. rewrite <- app_assoc. reflexivity.
    + exists (Raise e), []. intros st.
      simpl. unfold bind at 1. unfold insert_file_item at 1. unfold bind, lift, modify.
      rewrite Ef. rewrite app_nil_r. destruct st; reflexivity.
Qed.

(** ** Running the client

    Three ways to follow a run: [use_hyps] takes the branches that the
    hypotheses decide; [crunch] looks at every branch of an operation;
    [crunch_submit] does so for [submit_file] and takes what is known of
    [list_files] at its call. *)

Ltac unfold_client :=
  cbv [exec result callback list_files submit_file download_file choose_file
       list_files_response list_files_except submit_file_except download_file_except
       get_auth_token get_env_variable _initial_get_env_variable requests_post
       add_log print showerror showinfo
       bind gets modify lift ret raise try_except
       list_accepts submit_sends submit_ok rebuilds_tree configuration_missing has_input
       token_missing submitted not_str is_None
       list_request submit_request download_request].

Ltac simpl_state :=
  cbn [selected_file SUPA_UNPACK_API_URL SUPA_MAIN_API_URL file_tree ui sent save_dialogs
       written set_selected_file set_SUPA_UNPACK_API_URL set_SUPA_MAIN_API_URL set_file_tree
       add_ui add_sent add_save_dialog add_written fst snd] in *.

Ltac use_hyps :=
  repeat (simpl_state; cbv beta iota;
          match goal with
          | H : ?x = _ |- context [match ?x with _ => _ end] => rewrite H
          end);
  simpl_state; cbv beta iota.

Ltac destruct_innermost x :=
  lazymatch x with
  | context [match ?y with _ => _ end] => destruct_innermost y
  | for_each ?l insert_file_item _ =>
      let o := fresh "o" in let rows := fresh "rows" in let E := fresh "E" in
      destruct (for_each_insert_any l) as [o [rows E]]; rewrite !E; clear E; destruct o
  | _ => destruct x eqn:?
  end.

Ltac split_step :=
  match goal with
  | |- context [match ?x with _ => _ end] => destruct_innermost x
  end.

Ltac same_answers :=
  repeat match goal with
         | H : Return _ = Return _ |- _ => injection H as H; subst
         | H : Some _ = Some _ |- _ => injection H as H; subst
         | H : Raise _ = Raise _ |- _ => injection H as H; subst
         end.

Ltac finish :=
  intros; same_answers; simpl in *;
  rewrite ?andb_true_r, ?andb_false_r, ?orb_true_r, ?orb_false_r in *;
  first [reflexivity | discriminate | congruence | solve [auto]].

Ltac crunch := unfold_client; repeat (simpl_state; split_step); simpl_state.

(** ** list_files *)

Section ListFiles.

Variable lower : string -> string.
Variable w : world.

(** [list_files] leaves the selection and the configured URLs alone. *)
Lemma list_files_globals st : same_globals st (exec (list_files lower w) st).
Proof. unfold same_globals. crunch; auto. Qed.

(** It sends at most one request, the list request. *)
Lemma list_files_sent st :
  sent (exec (list_files lower w) st) = sent st \/
  exists u tok, SUPA_UNPACK_API_URL st = Some u /\ getenv w "SUPA_AUTH_TOKEN" = Some tok /\
                tok <> "" /\
                sent (exec (list_files lower w) st) = (sent st ++ [list_request u tok])%list.
Proof.
  crunch; auto; right; do 2 eexists; repeat split;
    first [reflexivity | eassumption | apply String.eqb_neq; assumption].
Qed.

(** With a URL and a token it sends exactly that one. *)
Lemma list_files_sends st u tok :
  SUPA_UNPACK_API_URL st = Some u -> getenv w "SUPA_AUTH_TOKEN" = Some tok -> tok <> "" ->
  sent (exec (list_files lower w) st) = (sent st ++ [list_request u tok])%list.
Proof.
  intros Hu Ht Hne. apply String.eqb_neq in Hne. revert Hu Ht Hne. crunch; finish.
Qed.

Lemma list_files_outside st :
  save_dialogs (exec (list_files lower w) st) = save_dialogs st /\
  written (exec (list_files lower w) st) = written st.
Proof. crunch; auto. Qed.

(** Until a response is accepted the tree is not touched. *)
Lemma list_files_tree_unchanged st :
  list_accepts w st = false ->
  file_tree (exec (list_files lower w) st) = file_tree st.
Proof. crunch; finish. Qed.

(** The tree after [list_files] is decided by the URL, the token, the old
    tree and the answer to the list request. *)
Lemma list_files_tree_ext w' st st' :
  SUPA_UNPACK_API_URL st' = SUPA_UNPACK_API_URL st ->
  file_tree st' = file_tree st ->
  getenv w' "SUPA_AUTH_TOKEN" = getenv w "SUPA_AUTH_TOKEN" ->
  (forall q, post w' (sent st') q = post w (sent st) q) ->
  file_tree (exec (list_files lower w') st') = file_tree (exec (list_files lower w) st).
Proof.
  intros Hu Ht Htok Hpost. unfold_client. simpl_state.
  rewrite Hu, Htok. repeat (simpl_state; rewrite ?Hpost; split_step); simpl_state; finish.
Qed.

End ListFiles.

(** ** submit_file *)

Ltac unfold_submit :=
  cbv [exec result submit_file submit_file_except
       get_auth_token get_env_variable requests_post
       add_log print showerror showinfo
       bind gets modify lift ret raise try_except
       submit_sends submit_ok rebuilds_tree configuration_missing has_input
       token_missing submitted submit_request not_str is_None].

Ltac destruct_call x :=
  lazymatch x with
  | context [match ?y with _ => _ end] => destruct_call y
  | list_files ?lo ?ww ?s =>
      let Hg := fresh "Hg" in let Hs := fresh "Hs" in let Ho := fresh "Ho" in
      pose proof (list_files_globals lo ww s) as Hg;
      pose proof (list_files_sent lo ww s) as Hs;
      pose proof (list_files_outside lo ww s) as Ho;
      unfold exec, same_globals in Hg, Hs, Ho;
      destruct (list_files lo ww s) as [? ?] eqn:?
  | _ => destruct x eqn:?
  end.

Ltac call_step :=
  match goal with
  | |- context [match ?x with _ => _ end] => destruct_call x
  end.

Ltac crunch_submit := unfold_submit; repeat (simpl_state; call_step); simpl_state.

Section SubmitFile.

Variable lower : string -> string.
Variable w : world.

Lemma submit_file_globals st : same_globals st (exec (submit_file lower w) st).
Proof. unfold same_globals. crunch_submit; simpl in *; intuition congruence. Qed.

Lemma submit_file_outside st :
  save_dialogs (exec (submit_file lower w) st) = save_dialogs st /\
  written (exec (submit_file lower w) st) = written st.
Proof. crunch_submit; simpl in *; intuition congruence. Qed.

(** After a 200, [submit_file] is one run of [list_files], from the state
    that holds the request and the reports of the success, inside the
    [try] of [submit_file]. *)
Lemma submit_file_run st :
  submit_ok w st = true ->
  exists req r,
    submit_sends w st = Some req /\ post w (sent st) req = Return r /\
    status_code r = 200%Z /\
    submit_file lower w st =
    try_except (list_files lower w) submit_file_except (submitted req r st).
Proof.
  unfold submit_ok. destruct (submit_sends w st) as [req|] eqn:Hreq; [|discriminate].
  destruct (post w (sent st) req) as [r|e] eqn:Hpost; [|discriminate].
  intros Hst. exists req, r.
  split; [reflexivity|]. split; [exact Hpost|]. split; [apply Z.eqb_eq, Hst|].
  revert Hreq Hpost. unfold submit_sends.
  destruct (selected_file st) as [f|] eqn:Hf; [|discriminate].
  destruct (SUPA_UNPACK_API_URL st) as [u|] eqn:Hu; [|discriminate].
  destruct (read_bytes w f) as [file_content|] eqn:Hread; [|discriminate].
  destruct (getenv w "SUPA_AUTH_TOKEN") as [tok|] eqn:Htok; [|discriminate].
  destruct (tok =? "") eqn:Hne; [discriminate|].
  intros [= <-] Hpost. unfold submit_request in Hpost.
  unfold_submit. use_hyps. reflexivity.
Qed.

End SubmitFile.

Section SubmitFileFacts.
Variable lower : string -> string.
Variable w : world.

(** The [except] clauses of [submit_file] only report. *)
Lemma submit_file_except_reports (m : M unit) st :
  let st1 := exec m st in
  let st2 := exec (try_except m submit_file_except) st in
  file_tree st2 = file_tree st1 /\ sent st2 = sent st1 /\
  selected_file st2 = selected_file st1.
Proof.
  unfold exec, try_except. destruct (m st) as [[a|e] s]; simpl; auto.
  unfold submit_file_except.
  destruct (is_RequestException (class_of e)); [simpl; auto|].
  destruct (is_Exception (class_of e)); simpl; auto.
Qed.

Lemma submit_file_sent st :
  match submit_sends w st with
  | None => sent (exec (submit_file lower w) st) = sent st
  | Some req =>
      sent (exec (submit_file lower w) st) = (sent st ++ [req])%list \/
      exists u tok, SUPA_UNPACK_API_URL st = Some u /\
                    getenv w "SUPA_AUTH_TOKEN" = Some tok /\ tok <> "" /\
                    sent (exec (submit_file lower w) st) =
                    (sent st ++ [req; list_request u tok])%list
  end.
Proof.
  crunch_submit; auto; try discriminate;
    match goal with
    | H : _ \/ _ |- _ =>
        destruct H as [H | [u' [tok' [Hu' [Htok' [Hne' H]]]]]];
        [left; simpl in *; congruence
        | right; exists u', tok'; rewrite <- app_assoc in H; simpl in *;
          repeat split; congruence]
    end.
Qed.

Lemma submit_file_tree_unchanged st :
  rebuilds_tree w SubmitFile st = false ->
  file_tree (exec (submit_file lower w) st) = file_tree st.
Proof.
  destruct (submit_ok w st) eqn:Hok.
  - destruct (submit_file_run lower w st Hok) as [req [r [Hreq [Hpost [Hst E]]]]].
    unfold rebuilds_tree. rewrite Hreq, Hok. simpl. intros Hacc.
    unfold exec at 1. rewrite E.
    destruct (submit_file_except_reports (list_files lower w) (submitted req r st)) as [Ht _].
    unfold exec at 1 in Ht. rewrite Ht.
    rewrite list_files_tree_unchanged; [reflexivity|].
    exact Hacc.
  - intros _. revert Hok. crunch_submit; finish.
Qed.
End SubmitFileFacts.

(** ** download_file, choose_file and the callbacks *)

Section Callbacks.
Variable lower : string -> string.
Variable w : world.

Lemma download_file_frame event st :
  same_globals st (exec (download_file w event) st) /\
  file_tree (exec (download_file w event) st) = file_tree st.
Proof. unfold same_globals. crunch; auto. Qed.

Lemma download_file_sent event st :
  sent (exec (download_file w event) st) = sent st \/
  exists u tok item,
    SUPA_MAIN_API_URL st = Some u /\ getenv w "SUPA_AUTH_TOKEN" = Some tok /\ tok <> "" /\
    sent (exec (download_file w event) st) =
    (sent st ++ [download_request u tok (row_name item)])%list.
Proof.
  crunch; auto; right; do 3 eexists; repeat split;
    first [reflexivity | eassumption | apply String.eqb_neq; assumption].
Qed.

Lemma choose_file_frame st :
  SUPA_UNPACK_API_URL (exec (choose_file w) st) = SUPA_UNPACK_API_URL st /\
  SUPA_MAIN_API_URL (exec (choose_file w) st) = SUPA_MAIN_API_URL st /\
  file_tree (exec (choose_file w) st) = file_tree st /\
  sent (exec (choose_file w) st) = sent st.
Proof. crunch; auto. Qed.

(** No operation changes the configured URLs. *)
Lemma callback_urls a st :
  SUPA_UNPACK_API_URL (exec (callback lower w a) st) = SUPA_UNPACK_API_URL st /\
  SUPA_MAIN_API_URL (exec (callback lower w a) st) = SUPA_MAIN_API_URL st.
Proof.
  destruct a; cbn [callback].
  - destruct (choose_file_frame st) as [? [? _]]. auto.
  - destruct (submit_file_globals lower w st) as [_ [? ?]]. auto.
  - destruct (list_files_globals lower w st) as [_ [? ?]]. auto.
  - destruct (download_file_frame event st) as [[_ [? ?]] _]. auto.
Qed.

(** Only [choose_file] changes the selection. *)
Lemma callback_selection a st :
  a <> ChooseFile ->
  selected_file (exec (callback lower w a) st) = selected_file st.
Proof.
  destruct a; cbn [callback]; intros Ha.
  - congruence.
  - apply submit_file_globals.
  - apply list_files_globals.
  - apply download_file_frame.
Qed.

(** Every request goes to a configured URL with the token of the
    environment, which is not empty. *)
Lemma callback_sent a st :
  urls_ok st ->
  exists new, sent (exec (callback lower w a) st) = (sent st ++ new)%list /\
              Forall request_ok new.
Proof.
  intros [Hu Hm].
  assert (Hreq : forall u tok j t, Some u <> Some "" -> tok <> "" ->
            request_ok {| url := u; headers := auth_headers tok; json := j; timeout := t |}).
  { intros u tok j t Hne Htok. split; [simpl; congruence|]. exists tok. auto. }
  destruct a; cbn [callback].
  - exists []. rewrite app_nil_r. split; [apply choose_file_frame | constructor].
  - pose proof (submit_file_sent lower w st) as H.
    destruct (submit_sends w st) as [req|] eqn:Hs.
    + assert (Hok : request_ok req).
      { revert Hs. unfold submit_sends.
        destruct (selected_file st); [|discriminate].
        destruct (SUPA_UNPACK_API_URL st) as [u|] eqn:Eu; [|discriminate].
        destruct (read_bytes w p); [|discriminate].
        destruct (getenv w "SUPA_AUTH_TOKEN") as [tok|]; [|discriminate].
        destruct (tok =? "") eqn:Et; [discriminate|].
        intros [= <-]. apply Hreq; [exact Hu | apply String.eqb_neq, Et]. }
      destruct H as [H | [u [tok [Eu [Et [Hne H]]]]]].
      * exists [req]. split; [exact H | constructor; [exact Hok | constructor]].
      * exists [req; list_request u tok]. split; [exact H|].
        constructor; [exact Hok|]. constructor; [|constructor].
        apply Hreq; [congruence | exact Hne].
    + exists []. rewrite app_nil_r. split; [exact H | constructor].
  - destruct (list_files_sent lower w st) as [H | [u [tok [Eu [Et [Hne H]]]]]].
    + exists []. rewrite app_nil_r. split; [exact H | constructor].
    + exists [list_request u tok]. split; [exact H|].
      constructor; [|constructor]. apply Hreq; [congruence | exact Hne].
  - destruct (download_file_sent event st) as [H | [u [tok [item [Eu [Et [Hne H]]]]]]].
    + exists []. rewrite app_nil_r. split; [exact H | constructor].
    + eexists [_]. split; [exact H|].
      constructor; [|constructor]. apply Hreq; [congruence | exact Hne].
Qed.
End Callbacks.

(** ** List: the tree after a successful listing *)

(** What [list_files] does with a 200 whose body is an object with a
    [message] and a list of well-formed entries. *)
Lemma list_files_ok lower w st u tok r data msg items rows :
  SUPA_UNPACK_API_URL st = Some u ->
  getenv w "SUPA_AUTH_TOKEN" = Some tok -> tok <> "" ->
  post w (sent st) (list_request u tok) = Return r ->
  status_code r = 200%Z ->
  json_of r = Return (PDict data) ->
  dict_lookup data "message" = Some msg ->
  py_get (PDict data) "files" (PList []) = Return (PList items) ->
  forallb is_entry items = true ->
  Forall2 is_row_of (sorted_entries lower items) rows ->
  exists count,
    py_get (PDict data) "count" (PInt 0) = Return count /\
    list_files lower w st =
    (Return tt,
     add_ui (Log [Lit "Retrieved "; Val count; Lit " files."])
       (set_file_tree rows
          (add_ui (Log [Val msg])
             (add_sent (list_request u tok)
                (add_ui (Log [Lit "Retrieving list of files..."]) st))))).
Proof.
  intros Hu Htok Hne Hpost Hst Hjson Hmsg Hfiles Hent Hrows.
  apply String.eqb_neq in Hne. apply Z.eqb_eq in Hst.
  assert (Hget : py_getitem (PDict data) "message" = Return msg).
  { simpl. rewrite Hmsg. reflexivity. }
  pose proof (sorted_entries_ok lower items Hent) as Hsorted.
  assert (Hcount : exists count, py_get (PDict data) "count" (PInt 0) = Return count).
  { simpl. destruct (dict_lookup data "count"); eauto. }
  destruct Hcount as [count Hcount]. exists count. split; [exact Hcount|].
  unfold list_request in *.
  unfold_client. use_hyps.
  rewrite (for_each_insert _ rows _ Hrows). use_hyps.
  reflexivity.
Qed.

(** The row of an entry, when it can be built, holds the name, the size
    and the date of the entry. *)
Lemma is_row_of_shown f r : is_row_of f r -> r = shown_row f.
Proof.
  intros [H _]. revert H.
  unfold file_item_values, shown_row, shown_name, shown_size, shown_last_modified,
    metadata_of.
  destruct (py_get f "name" (PStr "N/A")) as [n|]; [|discriminate].
  destruct (py_get f "metadata" (PDict [])) as [md|]; [|discriminate].
  destruct (py_get md "size" (PInt 0)) as [sz|]; [|discriminate].
  destruct (py_get md "lastModified" (PStr "N/A")) as [lm|]; [|discriminate].
  intros [= <-]. reflexivity.
Qed.

Lemma rows_are_shown l rows : Forall2 is_row_of l rows -> rows = map shown_row l.
Proof.
  induction 1 as [|f r l rows Hr Hl IH]; [reflexivity|].
  simpl. rewrite <- (is_row_of_shown f r Hr), IH. reflexivity.
Qed.

(** C1. After a successful List (status 200, a body that parses to an
    object with a message and a list of entries) the tree holds exactly one
    row for every entry of that response, with the name, the size and the
    date of the entry, in the order of the lowered names, entries whose
    lowered names are equal in the order of the response; whatever the tree
    held before is gone. *)
Theorem list_files_replaces_tree lower w st u tok r data msg items :
  SUPA_UNPACK_API_URL st = Some u ->
  getenv w "SUPA_AUTH_TOKEN" = Some tok -> tok <> "" ->
  post w (sent st) (list_request u tok) = Return r ->
  status_code r = 200%Z ->
  json_of r = Return (PDict data) ->
  dict_lookup data "message" = Some msg ->
  py_get (PDict data) "files" (PList []) = Return (PList items) ->
  forallb is_entry items = true ->
  exists shown,
    file_tree (exec (list_files lower w) st) = map shown_row shown /\
    Permutation items shown /\
    StronglySorted (name_le lower) shown /\
    (forall k, filter (named lower k) shown = filter (named lower k) items).
Proof.
  intros Hu Htok Hne Hpost Hst Hjson Hmsg Hfiles Hent.
  destruct (rows_of_sorted_entries lower items Hent) as [rows Hrows].
  destruct (list_files_ok lower w st u tok r data msg items rows
              Hu Htok Hne Hpost Hst Hjson Hmsg Hfiles Hent Hrows) as [count [_ E]].
  exists (sorted_entries lower items). repeat split.
  - unfold exec. rewrite E. exact (rows_are_shown _ _ Hrows).
  - apply sorted_entries_perm.
  - apply sorted_entries_sorted.
  - intros k. apply sorted_entries_stable.
Qed.

Lemma list_files_replaces_tree_witness :
  exists shown,
    file_tree (exec (list_files ascii_lower world_three_files) stale_state) =
    map shown_row shown /\
    Permutation [sample_entry "b.txt" 1; sample_entry "A.txt" 2; sample_entry "c.TXT" 3] shown /\
    StronglySorted (name_le ascii_lower) shown /\
    (forall k, filter (named ascii_lower k) shown =
               filter (named ascii_lower k)
                 [sample_entry "b.txt" 1; sample_entry "A.txt" 2; sample_entry "c.TXT" 3]).
Proof.
  apply (list_files_replaces_tree ascii_lower world_three_files stale_state
           unpack_url "secret"
           (listing [sample_entry "b.txt" 1; sample_entry "A.txt" 2; sample_entry "c.TXT" 3])
           [("message", PStr "ok");
            ("files", PList [sample_entry "b.txt" 1; sample_entry "A.txt" 2;
                             sample_entry "c.TXT" 3]);
            ("count", PInt 3)]
           (PStr "ok"));
    first [reflexivity | discriminate].
Defined.

Example list_files_three_files :
  file_tree (exec (list_files ascii_lower world_three_files) stale_state) =
  [sample_row "A.txt" 2; sample_row "b.txt" 1; sample_row "c.TXT" 3].
Proof. reflexivity. Qed.

(** Names that are equal without case keep the order of the server. *)
Example list_files_ties :
  let w := sample_world configured_env
             (fun _ _ => Return (listing [sample_entry "b.txt" 1; sample_entry "A.TXT" 2;
                                         sample_entry "a.txt" 3; sample_entry "B.TXT" 4;
                                         sample_entry "a.TXT" 5])) in
  file_tree (exec (list_files ascii_lower w) stale_state) =
  [sample_row "A.TXT" 2; sample_row "a.txt" 3; sample_row "a.TXT" 5;
   sample_row "b.txt" 1; sample_row "B.TXT" 4].
Proof. reflexivity. Qed.

(** The empty listing of the specification. *)
Example list_files_empty_listing :
  let w := sample_world configured_env (fun _ _ => Return (listing [])) in
  file_tree (exec (list_files ascii_lower w) stale_state) = [] /\
  ui (exec (list_files ascii_lower w) stale_state) =
  [retrieving; Log [Val (PStr "ok")]; retrieved (PInt 0)].
Proof. split; reflexivity. Qed.

Ltac norm_ui := repeat rewrite <- app_assoc; cbn [app].

(** ** List: what becomes of a response *)

Section ListOutcomes.

Variable lower : string -> string.
Variable w : world.
Variables (st : state) (u tok : string) (r : response).
Hypothesis Hu : SUPA_UNPACK_API_URL st = Some u.
Hypothesis Htok : getenv w "SUPA_AUTH_TOKEN" = Some tok.
Hypothesis Hne : tok <> "".
Hypothesis Hpost : post w (sent st) (list_request u tok) = Return r.

Let st' := exec (list_files lower w) st.

Ltac follow :=
  subst st'; pose proof Hu; pose proof Htok; pose proof Hpost;
  match goal with H : tok <> "" |- _ => apply String.eqb_neq in H end;
  unfold list_request in *; unfold_client; use_hyps.





(** With the [JSONDecodeError] of [requests], which is a
    [RequestException] too, the first [except] clause takes the error. *)
Lemma list_files_not_json_requests e :
  status_code r = 200%Z -> json_of r = Raise e -> class_of e = RequestsJSONDecodeError ->
  ui st' = (ui st ++ [retrieving;
                      Log [Lit "Network or API error during file listing: "; Err e];
                      ShowError "Network Error"
                        [Lit "Network or API error during file listing: "; Err e]])%list /\
  file_tree st' = file_tree st.
Proof.
  intros Hst Hjson Hclass. apply Z.eqb_eq in Hst. pose proof Hne as Hne'. follow.
  rewrite Hclass. cbn. norm_ui. split; reflexivity.
Qed.

End ListOutcomes.



(** A 200 with a page of HTML: the error [response.json()] raises is a
    [RequestException], and the first [except] clause takes it. *)
Example list_files_html_body :
  let st' := exec (list_files ascii_lower world_not_json) stale_state in
  ui st' = [retrieving;
            Log [Lit "Network or API error during file listing: "; Err not_json];
            ShowError "Network Error"
              [Lit "Network or API error during file listing: "; Err not_json]] /\
  file_tree st' = file_tree stale_state.
Proof. split; reflexivity. Qed.



(** ** The tree and the selection when an operation fails *)

(** Once a response is accepted nothing of the old tree is left, whatever
    happens to the entries. *)
Lemma list_files_forgets_old_tree lower w st old :
  list_accepts w st = true ->
  file_tree (exec (list_files lower w) (set_file_tree old st)) =
  file_tree (exec (list_files lower w) st).
Proof. crunch; finish. Qed.

Lemma callback_tree_unchanged lower w a st :
  rebuilds_tree w a st = false ->
  file_tree (exec (callback lower w a) st) = file_tree st.
Proof.
  destruct a; cbn [callback].
  - intros _. apply choose_file_frame.
  - apply submit_file_tree_unchanged.
  - apply list_files_tree_unchanged.
  - intros _. apply download_file_frame.
Qed.

(** C3, as the code has it.  No operation changes the selection, and an
    operation leaves the tree as it was unless it comes to accept a list
    response (a 200 whose body parses and has a [message]); from that point
    the old rows are gone, and the tree holds the rows inserted until the
    operation ended. *)
Theorem failure_keeps_selection_and_tree lower w a st :
  (a <> ChooseFile -> selected_file (exec (callback lower w a) st) = selected_file st) /\
  (rebuilds_tree w a st = false -> file_tree (exec (callback lower w a) st) = file_tree st) /\
  (list_accepts w st = true ->
     forall old, file_tree (exec (list_files lower w) (set_file_tree old st)) =
                 file_tree (exec (list_files lower w) st)).
Proof.
  split; [|split].
  - apply callback_selection.
  - apply callback_tree_unchanged.
  - intros H old. apply list_files_forgets_old_tree, H.
Qed.

Lemma failure_keeps_selection_and_tree_witness :
  selected_file (exec (callback ascii_lower world_500 RefreshFileList) stale_state) =
  Some report_pdf /\
  file_tree (exec (callback ascii_lower world_500 RefreshFileList) stale_state) =
  [sample_row "old-1.txt" 1; sample_row "old-2.txt" 2].
Proof.
  destruct (failure_keeps_selection_and_tree ascii_lower world_500 RefreshFileList stale_state)
    as [Hs [Ht _]].
  split; [apply Hs; discriminate | apply Ht; reflexivity].
Defined.

(** C3 as stated fails: an entry whose [metadata] is [null] makes the loop
    raise after the tree was cleared.  The failure is reported and the tree
    is left empty, or with the rows of the entries before the bad one. *)
Lemma list_files_failure_changes_tree :
  (let st' := exec (list_files ascii_lower world_null_metadata) stale_state in
   In (ShowError "Error" (unexpected_listing_error none_has_no_get)) (ui st') /\
   file_tree st' = [] /\
   file_tree st' <> file_tree stale_state) /\
  (let st' := exec (list_files ascii_lower world_second_entry_bad) stale_state in
   In (ShowError "Error" (unexpected_listing_error none_has_no_get)) (ui st') /\
   file_tree st' = [sample_row "a.txt" 1] /\
   file_tree st' <> file_tree stale_state).
Proof.
  split; cbv zeta; (split; [|split]); try reflexivity; try discriminate;
    simpl; auto 10.
Qed.

(** ** Submit: the listing that follows a success *)

Lemma submit_sends_inv w st req :
  submit_sends w st = Some req ->
  exists f u file_content tok,
    selected_file st = Some f /\ SUPA_UNPACK_API_URL st = Some u /\
    read_bytes w f = Return file_content /\
    getenv w "SUPA_AUTH_TOKEN" = Some tok /\ tok <> "" /\
    req = submit_request u tok (Base64.b64encode file_content) (name f).
Proof.
  unfold submit_sends.
  destruct (selected_file st) as [f|] eqn:Hf; [|discriminate].
  destruct (SUPA_UNPACK_API_URL st) as [u|] eqn:Hu; [|discriminate].
  destruct (read_bytes w f) as [file_content|] eqn:Hread; [|discriminate].
  destruct (getenv w "SUPA_AUTH_TOKEN") as [tok|] eqn:Htok; [|discriminate].
  destruct (tok =? "") eqn:Hne; [discriminate|].
  intros [= <-]. exists f, u, file_content, tok.
  apply String.eqb_neq in Hne. auto 10.
Qed.

Lemma submit_file_tree_after lower w st req r :
  submit_sends w st = Some req -> post w (sent st) req = Return r ->
  status_code r = 200%Z ->
  file_tree (exec (submit_file lower w) st) =
  file_tree (exec (list_files lower w) (add_sent req st)).
Proof.
  intros Hreq Hpost Hst.
  assert (Hok : submit_ok w st = true).
  { unfold submit_ok. rewrite Hreq, Hpost. apply Z.eqb_eq, Hst. }
  destruct (submit_file_run lower w st Hok) as [req' [r' [Hreq' [Hpost' [_ E]]]]].
  rewrite Hreq in Hreq'. injection Hreq' as <-.
  rewrite Hpost in Hpost'. injection Hpost' as <-.
  unfold exec at 1. rewrite E.
  destruct (submit_file_except_reports (list_files lower w) (submitted req r st)) as [Ht _].
  unfold exec at 1 in Ht. rewrite Ht.
  apply list_files_tree_ext; reflexivity.
Qed.



Example submit_upload_tree :
  file_tree (exec (submit_file ascii_lower world_upload) stale_state) =
  [sample_row "notes.txt" 5; sample_row "report.pdf" 10].
Proof. reflexivity. Qed.

(** ** Download: a file that is not on the server *)

(** C6. A Download that is answered with 404 logs, and shows in an Error
    box, the text File '<name>' not found on the server. with the name of
    the row; it opens no save dialog, writes no file and leaves the tree as
    it was. *)
Theorem download_not_found w st i item u tok r :
  nth_error (file_tree st) i = Some item ->
  py_not (row_name item) = false ->
  SUPA_MAIN_API_URL st = Some u ->
  getenv w "SUPA_AUTH_TOKEN" = Some tok -> tok <> "" ->
  post w (sent st) (download_request u tok (row_name item)) = Return r ->
  status_code r = 404%Z ->
  let st' := exec (download_file w (Some i)) st in
  ui st' = (ui st ++ [Log [Lit "Downloading file: "; Val (row_name item)];
                      Log [Lit "File '"; Val (row_name item);
                           Lit "' not found on the server."];
                      ShowError "Error"
                        [Lit "File '"; Val (row_name item);
                         Lit "' not found on the server."]])%list /\
  save_dialogs st' = save_dialogs st /\
  written st' = written st /\
  file_tree st' = file_tree st /\
  sent st' = (sent st ++ [download_request u tok (row_name item)])%list.
Proof.
  intros Hitem Hname Hu Htok Hne Hpost Hst st'. subst st'.
  apply String.eqb_neq in Hne.
  assert (Hid : identify (file_tree st) (Some i) = Some item) by exact Hitem.
  assert (H200 : (status_code r =? 200)%Z = false) by (rewrite Hst; reflexivity).
  assert (H404 : (status_code r =? 404)%Z = true) by (rewrite Hst; reflexivity).
  unfold download_request in *.
  unfold_client. use_hyps. norm_ui. repeat split; reflexivity.
Qed.

Lemma download_not_found_witness :
  let st' := exec (download_file world_404 (Some 0%nat)) stale_state in
  ui st' = [Log [Lit "Downloading file: "; Val (PStr "old-1.txt")];
            Log [Lit "File '"; Val (PStr "old-1.txt"); Lit "' not found on the server."];
            ShowError "Error"
              [Lit "File '"; Val (PStr "old-1.txt"); Lit "' not found on the server."]] /\
  save_dialogs st' = [] /\
  written st' = [] /\
  file_tree st' = file_tree stale_state /\
  sent st' = [download_request main_url "secret" (PStr "old-1.txt")].
Proof.
  apply (download_not_found world_404 stale_state 0 (sample_row "old-1.txt" 1)
           main_url "secret" (status_only 404 "no such file"));
    first [reflexivity | discriminate].
Defined.

(** ** Submit without a selection *)

(** C8. With no file selected, Submit reports that no file is selected and
    sends nothing; the outside (disk, environment, network) has no part in
    what it does. *)
Theorem submit_without_selection lower w st :
  selected_file st = None ->
  let st' := exec (submit_file lower w) st in
  ui st' = (ui st ++ [ShowError "Error" [Lit "No file selected!"];
                      Log [Lit "Error: No file selected!"]])%list /\
  sent st' = sent st /\
  (forall w', submit_file lower w' st = submit_file lower w st).
Proof.
  intros Hsel st'. subst st'. split; [|split].
  - unfold_submit. use_hyps. norm_ui. reflexivity.
  - unfold_submit. use_hyps. reflexivity.
  - intros w'. unfold_submit. use_hyps. reflexivity.
Qed.

Lemma submit_without_selection_witness :
  let st' := exec (submit_file ascii_lower world_three_files) initial_state in
  ui st' = [ShowError "Error" [Lit "No file selected!"]; Log [Lit "Error: No file selected!"]] /\
  sent st' = [] /\
  (forall w', submit_file ascii_lower w' initial_state =
              submit_file ascii_lower world_three_files initial_state).
Proof. apply (submit_without_selection ascii_lower world_three_files initial_state). reflexivity. Defined.

(** ** Missing configuration *)











Example submit_without_token :
  ui (exec (submit_file ascii_lower world_no_token) stale_state) =
  [Log [Lit "Preparing to submit file: "; Lit "report.pdf"; Lit "..."];
   Log [Lit "Error: Authorization token not found in environment variables!"];
   ShowError "Configuration Error"
     [Lit "Error: Authorization token not found in environment variables!"]].
Proof. reflexivity. Qed.

Example refresh_without_url :
  let st := set_SUPA_UNPACK_API_URL None stale_state in
  exec (list_files ascii_lower world_three_files) st =
  add_ui (Log [Lit "Error: SUPA_UNPACK_API_URL is not set."])
    (add_ui (ShowError "Configuration Error"
               [Lit "API URL not configured. Please set SUPA_UNPACK_API_URL."]) st).
Proof. reflexivity. Qed.

(** ** The upload of a file of ten bytes *)

Lemma Forall2_in_left {A B : Type} (R : A -> B -> Prop) x l l' :
  In x l -> Forall2 R l l' -> exists y, In y l' /\ R x y.
Proof.
  intros Hin H. induction H as [|a b l l' Hab Hl IH].
  - destruct Hin.
  - destruct Hin as [<- | Hin].
    + exists b. split; [left; reflexivity | exact Hab].
    + destruct (IH Hin) as [y [Hy Hxy]]. exists y. split; [right; exact Hy | exact Hxy].
Qed.

(** Ten bytes are three full groups and one byte: fourteen characters that
    carry the content and two of padding. *)
Lemma b64encode_ten_bytes data :
  List.length data = 10%nat ->
  String.length (Base64.b64encode data) = 16%nat /\
  exists body, Base64.b64encode data = body ++ "==" /\ String.length body = 14%nat.
Proof.
  intros H. split.
  - rewrite length_b64encode, H. reflexivity.
  - do 10 (destruct data as [|? data]; [discriminate|]).
    destruct data; [|discriminate].
    exists (substring 0 14 (Base64.b64encode [b; b0; b1; b2; b3; b4; b5; b6; b7; b8])).
    split; reflexivity.
Qed.

(** C9 as stated fails.  The encoding of a file of ten bytes has sixteen
    characters, not fourteen or fewer.  And the tree after the List need
    not show the uploaded file, although the server lists it: beside an
    entry whose [metadata] is [null] the upload and the list request are
    both sent and answered with 200, and the tree ends empty. *)
Lemma ten_bytes_scenario_fails :
  let st' := exec (submit_file ascii_lower world_upload_folder) stale_state in
  List.length ten_bytes = 10%nat /\
  Base64.b64encode ten_bytes = "JVBERi0xLjQKCg==" /\
  String.length (Base64.b64encode ten_bytes) = 16%nat /\
  ~ (String.length (Base64.b64encode ten_bytes) <= 14)%nat /\
  selected_file stale_state = Some report_pdf /\
  read_bytes world_upload_folder report_pdf = Return ten_bytes /\
  sent st' = [submit_request unpack_url "secret" "JVBERi0xLjQKCg==" "report.pdf";
              list_request unpack_url "secret"] /\
  post world_upload_folder [submit_request unpack_url "secret" "JVBERi0xLjQKCg==" "report.pdf"]
    (list_request unpack_url "secret") =
  Return (listing [PDict [("name", PStr "docs"); ("metadata", PNone)];
                   sample_entry "report.pdf" 10]) /\
  file_tree st' = [].
Proof. cbv zeta. repeat split. vm_compute. lia. Qed.

(** C9, as the code has it.  With a token, the unpack URL and a selected
    file of ten bytes, Submit posts to the unpack URL the name of the file
    and its encoding, which has sixteen characters, the last two padding;
    after a 200 it sends the list request, and when that is answered with a
    200 whose body is an object with a [message] and a list of well-formed
    entries (objects with a string [name] whose [metadata], when present,
    is an object), one of which has the name of the file, the tree shows a
    row of that name. *)
Theorem submit_ten_bytes lower w st f u tok file_content :
  selected_file st = Some f ->
  SUPA_UNPACK_API_URL st = Some u ->
  read_bytes w f = Return file_content ->
  List.length file_content = 10%nat ->
  getenv w "SUPA_AUTH_TOKEN" = Some tok -> tok <> "" ->
  let encoded := Base64.b64encode file_content in
  let req := submit_request u tok encoded (name f) in
  let st' := exec (submit_file lower w) st in
  String.length encoded = 16%nat /\
  (exists body, encoded = body ++ "==" /\ String.length body = 14%nat) /\
  (exists rest, sent st' = (sent st ++ req :: rest)%list) /\
  (forall r, post w (sent st) req = Return r -> status_code r = 200%Z ->
     sent st' = (sent st ++ [req; list_request u tok])%list /\
     forall r2 data msg items,
       post w (sent st ++ [req])%list (list_request u tok) = Return r2 ->
       status_code r2 = 200%Z ->
       json_of r2 = Return (PDict data) ->
       dict_lookup data "message" = Some msg ->
       py_get (PDict data) "files" (PList []) = Return (PList items) ->
       forallb is_entry items = true ->
       (exists e, In e items /\ name_of e = name f) ->
       exists shown, In shown (file_tree st') /\ row_name shown = PStr (name f)).
Proof.
  intros Hf Hu Hread Hlen Htok Hne encoded req st'.
  assert (Hreq : submit_sends w st = Some req).
  { unfold submit_sends. rewrite Hf, Hu, Hread, Htok.
    apply String.eqb_neq in Hne. rewrite Hne. reflexivity. }
  destruct (b64encode_ten_bytes file_content Hlen) as [H16 Hbody].
  split; [exact H16|]. split; [exact Hbody|]. split.
  - pose proof (submit_file_sent lower w st) as Hs. rewrite Hreq in Hs.
    destruct Hs as [Hs | [u' [tok' [_ [_ [_ Hs]]]]]]; eexists; exact Hs.
  - intros r Hpost Hst.
    assert (Hok : submit_ok w st = true).
    { unfold submit_ok. rewrite Hreq, Hpost. apply Z.eqb_eq, Hst. }
    destruct (submit_file_run lower w st Hok) as [req' [r' [Hreq' [Hpost' [_ E]]]]].
    rewrite Hreq in Hreq'. injection Hreq' as <-.
    rewrite Hpost in Hpost'. injection Hpost' as <-.
    split.
    + unfold st', exec at 1. rewrite E.
      destruct (submit_file_except_reports (list_files lower w) (submitted req r st))
        as [_ [Hs _]].
      unfold exec at 1 in Hs. rewrite Hs.
      rewrite (list_files_sends lower w (submitted req r st) u tok Hu Htok Hne).
      cbn [sent submitted add_ui add_sent]. rewrite <- app_assoc. reflexivity.
    + intros r2 data msg items Hpost2 Hst2 Hjson Hmsg Hfiles Hent [e [Hin Hname]].
      unfold st'. rewrite (submit_file_tree_after lower w st req r Hreq Hpost Hst).
      destruct (rows_of_sorted_entries lower items Hent) as [rows Hrows].
      destruct (list_files_ok lower w (add_sent req st) u tok r2 data msg items rows
                  Hu Htok Hne Hpost2 Hst2 Hjson Hmsg Hfiles Hent Hrows) as [count [_ El]].
      unfold exec. rewrite El. cbn [snd file_tree add_ui set_file_tree].
      assert (Hin' : In e (sorted_entries lower items)).
      { eapply Permutation_in; [apply sorted_entries_perm | exact Hin]. }
      destruct (Forall2_in_left _ _ _ _ Hin' Hrows) as [shown [Hshown [_ Hrow]]].
      exists shown. split; [exact Hshown|]. rewrite Hrow, Hname. reflexivity.
Qed.

Lemma submit_ten_bytes_witness :
  exists shown,
    In shown (file_tree (exec (submit_file ascii_lower world_upload) stale_state)) /\
    row_name shown = PStr "report.pdf".
Proof.
  destruct (submit_ten_bytes ascii_lower world_upload stale_state report_pdf unpack_url
              "secret" ten_bytes) as [_ [_ [_ H]]];
    [reflexivity | reflexivity | reflexivity | reflexivity | reflexivity | discriminate |].
  destruct (H (ok_json "stored" (PStr "stored")) eq_refl eq_refl) as [_ H2].
  apply (H2 (listing [sample_entry "notes.txt" 5; sample_entry "report.pdf" 10])
            [("message", PStr "ok");
             ("files", PList [sample_entry "notes.txt" 5; sample_entry "report.pdf" 10]);
             ("count", PInt 2)]
            (PStr "ok")
            [sample_entry "notes.txt" 5; sample_entry "report.pdf" 10]);
    try reflexivity.
  exists (sample_entry "report.pdf" 10). split; [right; left; reflexivity | reflexivity].
Defined.

(** ** Configuration values that are set but empty *)

Section EmptyValue.

Variable lower : string -> string.
Variable w : world.
Variable var : string.
Hypothesis Hempty : getenv w var = Some "".

Lemma get_env_variable_unsetenv v msg :
  get_env_variable (unsetenv var w) v msg = get_env_variable w v msg.
Proof.
  unfold get_env_variable, unsetenv. cbn [getenv].
  destruct (v =? var) eqn:E; [|reflexivity].
  apply String.eqb_eq in E. subst v. rewrite Hempty. reflexivity.
Qed.

Lemma initial_get_env_variable_unsetenv v msg :
  _initial_get_env_variable (unsetenv var w) v msg = _initial_get_env_variable w v msg.
Proof.
  unfold _initial_get_env_variable, unsetenv. cbn [getenv].
  destruct (v =? var) eqn:E; [|reflexivity].
  apply String.eqb_eq in E. subst v. rewrite Hempty. reflexivity.
Qed.

Lemma list_files_unsetenv : list_files lower (unsetenv var w) = list_files lower w.
Proof.
  unfold list_files, get_auth_token. rewrite get_env_variable_unsetenv. reflexivity.
Qed.

Lemma submit_file_unsetenv : submit_file lower (unsetenv var w) = submit_file lower w.
Proof.
  unfold submit_file, get_auth_token.
  rewrite get_env_variable_unsetenv, list_files_unsetenv. reflexivity.
Qed.

Lemma download_file_unsetenv event :
  download_file (unsetenv var w) event = download_file w event.
Proof.
  unfold download_file, get_auth_token. rewrite get_env_variable_unsetenv. reflexivity.
Qed.

Lemma callback_unsetenv a : callback lower (unsetenv var w) a = callback lower w a.
Proof.
  destruct a; cbn [callback].
  - reflexivity.
  - apply submit_file_unsetenv.
  - apply list_files_unsetenv.
  - apply download_file_unsetenv.
Qed.

Lemma mainloop_unsetenv actions :
  mainloop lower (unsetenv var w) actions = mainloop lower w actions.
Proof.
  induction actions as [|a actions IH]; simpl.
  - reflexivity.
  - unfold reported_callback. rewrite callback_unsetenv, IH. reflexivity.
Qed.

Lemma main_unsetenv : main (unsetenv var w) = main w.
Proof. unfold main. rewrite !initial_get_env_variable_unsetenv. reflexivity. Qed.

Lemma program_unsetenv actions :
  program lower (unsetenv var w) actions = program lower w actions.
Proof. unfold program. rewrite main_unsetenv, mainloop_unsetenv. reflexivity. Qed.

End EmptyValue.



Ltac unfold_main :=
  cbv [exec result program main _initial_get_env_variable
       add_log print showerror showinfo
       bind gets modify lift ret raise try_except not_str is_None set_or_not].

Ltac crunch_main := unfold_main; repeat (simpl_state; split_step); simpl_state.

Section Sessions.

Variable lower : string -> string.
Variable w : world.

(** An empty value is reported and gives [None], as a missing one. *)
Lemma get_env_variable_empty var msg st :
  getenv w var = Some "" ->
  get_env_variable w var msg st =
  (Return None, add_ui (ShowError "Configuration Error" [Lit msg]) (add_ui (Log [Lit msg]) st)).
Proof. intros H. unfold get_env_variable. rewrite H. reflexivity. Qed.

Lemma initial_get_env_variable_empty var msg st :
  getenv w var = Some "" ->
  _initial_get_env_variable w var msg st =
  (Return None,
   add_ui (ShowError "Configuration Error" [Lit msg])
     (add_ui (Print [Lit msg; Lit " (via console)"]) st)).
Proof. intros H. unfold _initial_get_env_variable. rewrite H. reflexivity. Qed.

(** [main] sends nothing, and returns only with URLs that are not empty. *)
Lemma main_sent st : sent (exec (main w) st) = sent st.
Proof. crunch_main; reflexivity. Qed.

Lemma main_urls_ok st : result (main w) st = Return tt -> urls_ok (exec (main w) st).
Proof.
  unfold urls_ok. crunch_main; intros; try discriminate;
    split; intros [= ->]; discriminate.
Qed.

(** With one of its three variables empty, [main] exits. *)
Lemma main_exits var st :
  consumed var -> getenv w var = Some "" -> result (main w) st = Raise exit_1.
Proof.
  intros [-> | [-> | ->]] H; unfold_main; rewrite H; repeat (simpl_state; split_step);
    simpl in *; first [reflexivity | discriminate].
Qed.

Lemma reported_callback_frame a st :
  sent (exec (reported_callback lower w a) st) = sent (exec (callback lower w a) st) /\
  SUPA_UNPACK_API_URL (exec (reported_callback lower w a) st) =
  SUPA_UNPACK_API_URL (exec (callback lower w a) st) /\
  SUPA_MAIN_API_URL (exec (reported_callback lower w a) st) =
  SUPA_MAIN_API_URL (exec (callback lower w a) st).
Proof.
  unfold exec, reported_callback, try_except.
  destruct (callback lower w a st) as [[[]|e] s]; simpl; auto.
  destruct (is_Exception (class_of e)); simpl; auto.
Qed.

Lemma mainloop_sent actions st :
  urls_ok st ->
  exists new, sent (exec (mainloop lower w actions) st) = (sent st ++ new)%list /\
              Forall request_ok new.
Proof.
  revert st. induction actions as [|a actions IH]; intros st Hok.
  - exists []. rewrite app_nil_r. split; [reflexivity | constructor].
  - destruct (callback_sent lower w a st Hok) as [new1 [Hs1 Hf1]].
    destruct (reported_callback_frame a st) as [Hs [Hu Hm]].
    destruct (callback_urls lower w a st) as [Hu' Hm'].
    change (mainloop lower w (a :: actions))
      with (bind (reported_callback lower w a) (fun _ => mainloop lower w actions)).
    unfold exec, bind in *.
    destruct (reported_callback lower w a st) as [[[]|e] s1]; cbn [snd] in *.
    + destruct (IH s1) as [new2 [Hs2 Hf2]].
      { unfold urls_ok in *. rewrite Hu, Hu', Hm, Hm'. exact Hok. }
      exists (new1 ++ new2)%list. split.
      * rewrite Hs2, Hs, Hs1, app_assoc. reflexivity.
      * apply Forall_app. split; assumption.
    + exists new1. split; [rewrite Hs; exact Hs1 | exact Hf1].
Qed.

Lemma program_sent actions st :
  exists new, sent (exec (program lower w actions) st) = (sent st ++ new)%list /\
              Forall request_ok new.
Proof.
  pose proof (main_sent st) as Hs. pose proof (main_urls_ok st) as Hok.
  unfold program, exec, result, bind in *.
  destruct (main w st) as [[[]|e] s1]; cbn [fst snd] in *.
  - destruct (mainloop_sent actions s1 (Hok eq_refl)) as [new [Hn Hf]].
    exists new. split; [unfold exec in Hn; rewrite Hn, Hs; reflexivity | exact Hf].
  - exists []. rewrite app_nil_r. split; [exact Hs | constructor].
Qed.

Lemma program_exits var actions st :
  consumed var -> getenv w var = Some "" ->
  result (program lower w actions) st = Raise exit_1 /\
  sent (exec (program lower w actions) st) = sent st.
Proof.
  intros Hc H. pose proof (main_exits var st Hc H) as Hr. pose proof (main_sent st) as Hs.
  unfold program, exec, result, bind in *.
  destruct (main w st) as [[[]|e] s1]; cbn [fst snd] in *.
  - discriminate.
  - split; assumption.
Qed.

End Sessions.

(** C10. A configuration value that is set to the empty string is treated
    as one that is not set: both lookups report it and give [None], and a
    whole session runs as it does without the variable; when the variable
    is one of the three the client reads, [main] exits and nothing is ever
    sent.  In every session, each request that is sent has a URL and a
    bearer token that are not empty. *)
Theorem empty_value_is_absent lower w :
  (forall var, getenv w var = Some "" ->
     (forall msg st,
        get_env_variable w var msg st = get_env_variable (unsetenv var w) var msg st /\
        result (get_env_variable w var msg) st = Return None) /\
     (forall msg st,
        _initial_get_env_variable w var msg st =
        _initial_get_env_variable (unsetenv var w) var msg st /\
        result (_initial_get_env_variable w var msg) st = Return None) /\
     (forall actions, program lower w actions = program lower (unsetenv var w) actions) /\
     (consumed var -> forall actions st,
        result (program lower w actions) st = Raise exit_1 /\
        sent (exec (program lower w actions) st) = sent st)) /\
  (forall actions st,
     exists new, sent (exec (program lower w actions) st) = (sent st ++ new)%list /\
                 Forall request_ok new).
Proof.
  split.
  - intros var H. split; [|split; [|split]].
    + intros msg st. rewrite (get_env_variable_unsetenv w var H).
      split; [reflexivity|]. unfold result. rewrite (get_env_variable_empty w var msg st H).
      reflexivity.
    + intros msg st. rewrite (initial_get_env_variable_unsetenv w var H).
      split; [reflexivity|].
      unfold result. rewrite (initial_get_env_variable_empty w var msg st H). reflexivity.
    + intros actions. symmetry. apply program_unsetenv, H.
    + intros Hc actions st. apply (program_exits lower w var actions st Hc H).
  - intros actions st. apply program_sent.
Qed.

Lemma empty_value_is_absent_witness :
  result (program ascii_lower world_empty_token [RefreshFileList; SubmitFile]) initial_state =
  Raise exit_1 /\
  sent (exec (program ascii_lower world_empty_token [RefreshFileList; SubmitFile])
          initial_state) = [].
Proof.
  destruct (empty_value_is_absent ascii_lower world_empty_token) as [H _].
  destruct (H "SUPA_AUTH_TOKEN" eq_refl) as [_ [_ [_ Hexit]]].
  apply Hexit. left. reflexivity.
Defined.

Example empty_token_like_no_token :
  program ascii_lower world_empty_token [RefreshFileList] initial_state =
  program ascii_lower world_no_token [RefreshFileList] initial_state.
Proof. reflexivity. Qed.

Example empty_token_at_refresh :
  exec (list_files ascii_lower world_empty_token) stale_state =
  exec (list_files ascii_lower world_no_token) stale_state.
Proof. reflexivity. Qed.

(** ** Download: the other outcomes *)

Section Download.

Variable w : world.
Variables (st : state) (i : nat) (item : row) (u tok : string).
Hypothesis Hitem : nth_error (file_tree st) i = Some item.
Hypothesis Hname : py_not (row_name item) = false.
Hypothesis Hu : SUPA_MAIN_API_URL st = Some u.
Hypothesis Htok : getenv w "SUPA_AUTH_TOKEN" = Some tok.
Hypothesis Hne : tok <> "".

Let st' := exec (download_file w (Some i)) st.
Let req := download_request u tok (row_name item).

Ltac follow_download :=
  subst st' req;
  pose proof Hitem as Hid; change (identify (file_tree st) (Some i) = Some item) in Hid;
  pose proof Hname; pose proof Hu; pose proof Htok;
  pose proof Hne as Hne'; apply String.eqb_neq in Hne';
  unfold download_request in *; unfold_client; use_hyps.

(** X1. A download answered with 200 asks once where to save, under the
    name of the row, and writes the bytes of the response, as they are, to
    the path that was chosen; it then logs a line and shows a Success
    box. *)
Theorem download_saves_content r :
  post w (sent st) req = Return r -> status_code r = 200%Z ->
  asksaveasfilename w (row_name item) <> "" ->
  write_bytes w {| path_str := asksaveasfilename w (row_name item) |} (content r) = Return tt ->
  written st' = (written st ++
                 [({| path_str := asksaveasfilename w (row_name item) |}, content r)])%list /\
  save_dialogs st' = (save_dialogs st ++ [row_name item])%list /\
  (exists saved_line saved_box,
     ui st' = (ui st ++ [downloading (row_name item); Log saved_line;
                         ShowInfo "Success" saved_box])%list) /\
  sent st' = (sent st ++ [req])%list.
Proof.
  intros Hpost Hst Hpath Hwrite. apply Z.eqb_eq in Hst. apply String.eqb_neq in Hpath.
  assert (Hp : negb (asksaveasfilename w (row_name item) =? "") = true)
    by (rewrite Hpath; reflexivity).
  follow_download. norm_ui.
  split; [reflexivity|]. split; [reflexivity|].
  split; [do 2 eexists; reflexivity | reflexivity].
Qed.

(** X2. When the save dialog is cancelled nothing is written and no
    message box is shown: the download ends with a log line. *)
Theorem download_cancelled r :
  post w (sent st) req = Return r -> status_code r = 200%Z ->
  asksaveasfilename w (row_name item) = "" ->
  written st' = written st /\
  save_dialogs st' = (save_dialogs st ++ [row_name item])%list /\
  ui st' = (ui st ++ [downloading (row_name item); Log [Lit "Download cancelled."]])%list.
Proof.
  intros Hpost Hst Hpath. apply Z.eqb_eq in Hst.
  assert (Hp : negb (asksaveasfilename w (row_name item) =? "") = false)
    by (rewrite Hpath; reflexivity).
  follow_download. norm_ui. repeat split; reflexivity.
Qed.

(** X3. A status other than 200 and 404 is reported with the status code
    and the body of the response; no save dialog is opened and nothing is
    written. *)
Theorem download_failure r :
  post w (sent st) req = Return r ->
  status_code r <> 200%Z -> status_code r <> 404%Z ->
  ui st' = (ui st ++ [downloading (row_name item); Log (download_failure_message r);
                      ShowError "Error" (download_failure_message r)])%list /\
  save_dialogs st' = save_dialogs st /\ written st' = written st.
Proof.
  intros Hpost H200 H404. apply Z.eqb_neq in H200, H404.
  follow_download. norm_ui. repeat split; reflexivity.
Qed.

(** X4. A request that fails on the network is reported as a network
    error; the request was made once, and nothing is asked or written. *)
Theorem download_transport_error e :
  post w (sent st) req = Raise e -> is_RequestException (class_of e) = true ->
  ui st' = (ui st ++ [downloading (row_name item); Log (download_network_error e);
                      ShowError "Network Error" (download_network_error e)])%list /\
  sent st' = (sent st ++ [req])%list /\
  save_dialogs st' = save_dialogs st /\ written st' = written st.
Proof.
  intros Hpost Hclass. follow_download. norm_ui. repeat split; reflexivity.
Qed.

(** X5. When the file cannot be written the error is reported as an
    unexpected error of the download, after the dialog, and no success is
    shown. *)
Theorem download_write_error r e :
  post w (sent st) req = Return r -> status_code r = 200%Z ->
  asksaveasfilename w (row_name item) <> "" ->
  write_bytes w {| path_str := asksaveasfilename w (row_name item) |} (content r) = Raise e ->
  is_RequestException (class_of e) = false -> is_Exception (class_of e) = true ->
  ui st' = (ui st ++ [downloading (row_name item); Log (download_unexpected_error e);
                      ShowError "Error" (download_unexpected_error e)])%list /\
  written st' = written st.
Proof.
  intros Hpost Hst Hpath Hwrite Hreq Hexc. apply Z.eqb_eq in Hst. apply String.eqb_neq in Hpath.
  assert (Hp : negb (asksaveasfilename w (row_name item) =? "") = true)
    by (rewrite Hpath; reflexivity).
  follow_download. norm_ui. repeat split; reflexivity.
Qed.

End Download.

Lemma download_saves_content_witness :
  written (exec (download_file world_download (Some 0%nat)) stale_state) =
  [({| path_str := "/tmp/out.pdf" |}, pdf_magic)].
Proof.
  edestruct (download_saves_content world_download stale_state 0 (sample_row "old-1.txt" 1)
               main_url "secret") as [H _];
    try exact H; first [reflexivity | discriminate].
Defined.

Lemma download_cancelled_witness :
  written (exec (download_file world_download_cancelled (Some 1%nat)) stale_state) = [].
Proof.
  edestruct (download_cancelled world_download_cancelled stale_state 1
               (sample_row "old-2.txt" 2) main_url "secret") as [H _];
    try exact H; first [reflexivity | discriminate].
Defined.

Lemma download_failure_witness :
  ui (exec (download_file world_500 (Some 0%nat)) stale_state) =
  [downloading (PStr "old-1.txt");
   Log (download_failure_message (status_only 500 "internal error"));
   ShowError "Error" (download_failure_message (status_only 500 "internal error"))].
Proof.
  edestruct (download_failure world_500 stale_state 0 (sample_row "old-1.txt" 1)
               main_url "secret") as [H _];
    try exact H; first [reflexivity | discriminate].
Defined.

Lemma download_transport_error_witness :
  ui (exec (download_file world_offline (Some 0%nat)) stale_state) =
  [downloading (PStr "old-1.txt"); Log (download_network_error connection_refused);
   ShowError "Network Error" (download_network_error connection_refused)].
Proof.
  edestruct (download_transport_error world_offline stale_state 0 (sample_row "old-1.txt" 1)
               main_url "secret") as [H _];
    try exact H; first [reflexivity | discriminate].
Defined.

Lemma download_write_error_witness :
  ui (exec (download_file world_download_disk_full (Some 0%nat)) stale_state) =
  [downloading (PStr "old-1.txt"); Log (download_unexpected_error disk_full);
   ShowError "Error" (download_unexpected_error disk_full)].
Proof.
  edestruct (download_write_error world_download_disk_full stale_state 0
               (sample_row "old-1.txt" 1) main_url "secret") as [H _];
    try exact H; first [reflexivity | discriminate].
Defined.

(** X6. A double click that hits no row does nothing at all, and one on a
    row without a name only writes a log line: in both cases the
    configuration is not looked at and nothing is sent. *)
Theorem download_without_row w event st :
  (identify (file_tree st) event = None -> download_file w event st = (Return tt, st)) /\
  (forall item, identify (file_tree st) event = Some item -> py_not (row_name item) = true ->
     download_file w event st =
     (Return tt, add_ui (Log [Lit "No file selected for download."]) st)).
Proof.
  split.
  - intros H. unfold_client. use_hyps. reflexivity.
  - intros item H Hn. unfold_client. use_hyps. reflexivity.
Qed.

Lemma download_without_row_witness :
  download_file world_download None stale_state = (Return tt, stale_state) /\
  download_file world_download (Some 7%nat) stale_state = (Return tt, stale_state).
Proof.
  split.
  - apply (proj1 (download_without_row world_download None stale_state)). reflexivity.
  - apply (proj1 (download_without_row world_download (Some 7%nat) stale_state)). reflexivity.
Defined.

(** ** Submit: the other outcomes *)

Section Submit.

Variable lower : string -> string.
Variable w : world.
Variables (st : state) (f : Path) (u : string).
Hypothesis Hf : selected_file st = Some f.
Hypothesis Hu : SUPA_UNPACK_API_URL st = Some u.

Let st' := exec (submit_file lower w) st.

(** X7. When the selected file cannot be read, Submit reports an
    unexpected error and stops: the token is not asked for and nothing is
    sent. *)
Theorem submit_unreadable_file e :
  read_bytes w f = Raise e ->
  is_RequestException (class_of e) = false -> is_Exception (class_of e) = true ->
  ui st' = (ui st ++ [preparing f; Log (submit_unexpected_error e);
                      ShowError "Error" (submit_unexpected_error e)])%list /\
  sent st' = sent st /\ file_tree st' = file_tree st.
Proof.
  intros Hread Hreq Hexc. subst st'. pose proof Hf. pose proof Hu.
  unfold_submit. use_hyps. norm_ui. repeat split; reflexivity.
Qed.

Variables (file_content : list byte) (tok : string).
Hypothesis Hread : read_bytes w f = Return file_content.
Hypothesis Htok : getenv w "SUPA_AUTH_TOKEN" = Some tok.
Hypothesis Hne : tok <> "".

Let req := submit_request u tok (Base64.b64encode file_content) (name f).

Ltac follow_submit :=
  subst st' req; pose proof Hf; pose proof Hu; pose proof Hread; pose proof Htok;
  pose proof Hne as Hne'; apply String.eqb_neq in Hne';
  unfold submit_request in *; unfold_submit; use_hyps.

(** X8. A status other than 200 is reported with the status code and the
    body as received; the upload was the only request, no listing follows,
    and the tree stays as it was. *)
Theorem submit_failure r :
  post w (sent st) req = Return r -> status_code r <> 200%Z ->
  ui st' = (ui st ++ [preparing f; Log (submit_failure_message r);
                      ShowError "Error" (submit_failure_message r)])%list /\
  sent st' = (sent st ++ [req])%list /\ file_tree st' = file_tree st.
Proof.
  intros Hpost Hst. apply Z.eqb_neq in Hst.
  follow_submit. norm_ui. repeat split; reflexivity.
Qed.

(** X9. An upload that fails on the network is reported as a network
    error; no listing follows and the tree stays as it was. *)
Theorem submit_transport_error e :
  post w (sent st) req = Raise e -> is_RequestException (class_of e) = true ->
  ui st' = (ui st ++ [preparing f; Log (submit_network_error e);
                      ShowError "Network Error" (submit_network_error e)])%list /\
  sent st' = (sent st ++ [req])%list /\ file_tree st' = file_tree st.
Proof.
  intros Hpost Hclass. follow_submit. norm_ui. repeat split; reflexivity.
Qed.

End Submit.

Lemma submit_unreadable_file_witness :
  ui (exec (submit_file ascii_lower world_file_removed) stale_state) =
  [preparing report_pdf; Log (submit_unexpected_error file_not_found);
   ShowError "Error" (submit_unexpected_error file_not_found)].
Proof.
  edestruct (submit_unreadable_file ascii_lower world_file_removed stale_state report_pdf
               unpack_url) as [H _];
    try exact H; first [reflexivity | discriminate].
Defined.

Lemma submit_failure_witness :
  sent (exec (submit_file ascii_lower world_500) stale_state) =
  [submit_request unpack_url "secret" "JVBERi0xLjQKCg==" "report.pdf"].
Proof.
  edestruct (submit_failure ascii_lower world_500 stale_state report_pdf unpack_url
               eq_refl eq_refl ten_bytes "secret") as [_ [H _]];
    try exact H; first [reflexivity | discriminate].
Defined.

Lemma submit_transport_error_witness :
  ui (exec (submit_file ascii_lower world_offline) stale_state) =
  [preparing report_pdf; Log (submit_network_error connection_refused);
   ShowError "Network Error" (submit_network_error connection_refused)].
Proof.
  edestruct (submit_transport_error ascii_lower world_offline stale_state report_pdf
               unpack_url eq_refl eq_refl ten_bytes "secret") as [H _];
    try exact H; first [reflexivity | discriminate].
Defined.

(** ** choose_file, and Submit after it *)

(** X10. Cancelling the file dialog clears the selection that was there:
    a Submit that follows reports that no file is selected and sends
    nothing. *)
Theorem choose_cancel_clears_selection lower w st :
  askopenfilename w = "" ->
  let st1 := exec (choose_file w) st in
  let st2 := exec (submit_file lower w) st1 in
  selected_file st1 = None /\
  ui st2 = (ui st ++ [FileLabel [Lit "No file selected"]; Log [Lit "No file selected"];
                      ShowError "Error" [Lit "No file selected!"];
                      Log [Lit "Error: No file selected!"]])%list /\
  sent st2 = sent st /\ file_tree st2 = file_tree st.
Proof.
  intros H. assert (Hn : negb (askopenfilename w =? "") = false) by (rewrite H; reflexivity).
  cbv zeta. unfold_client. use_hyps. norm_ui. repeat split; reflexivity.
Qed.

Lemma choose_cancel_clears_selection_witness :
  selected_file stale_state = Some report_pdf /\
  selected_file (exec (choose_file world_cancel_choice) stale_state) = None.
Proof.
  split; [reflexivity|].
  apply (choose_cancel_clears_selection ascii_lower world_cancel_choice stale_state).
  reflexivity.
Defined.

(** X11. Choosing a file replaces the selection: the Submit that follows
    reads the file that was chosen last and uploads it under its own
    name. *)
Theorem choose_then_submit lower w st u tok file_content :
  askopenfilename w <> "" ->
  SUPA_UNPACK_API_URL st = Some u ->
  read_bytes w {| path_str := askopenfilename w |} = Return file_content ->
  getenv w "SUPA_AUTH_TOKEN" = Some tok -> tok <> "" ->
  let chosen := {| path_str := askopenfilename w |} in
  let st1 := exec (choose_file w) st in
  let st2 := exec (submit_file lower w) st1 in
  selected_file st1 = Some chosen /\
  selected_file st2 = Some chosen /\
  exists rest,
    sent st2 = (sent st ++ submit_request u tok (Base64.b64encode file_content) (name chosen)
                           :: rest)%list.
Proof.
  intros Hp Hu Hread Htok Hne chosen st1 st2.
  assert (Hsel : selected_file st1 = Some chosen).
  { subst st1 chosen. apply String.eqb_neq in Hp.
    assert (Hn : negb (askopenfilename w =? "") = true) by (rewrite Hp; reflexivity).
    unfold_client. use_hyps. reflexivity. }
  assert (Hu1 : SUPA_UNPACK_API_URL st1 = Some u).
  { subst st1. rewrite (proj1 (choose_file_frame w st)). exact Hu. }
  assert (Hs1 : sent st1 = sent st).
  { subst st1. apply choose_file_frame. }
  split; [exact Hsel|]. split.
  - subst st2. rewrite (proj1 (submit_file_globals lower w st1)). exact Hsel.
  - pose proof (submit_file_sent lower w st1) as Hs.
    assert (Hreq : submit_sends w st1 =
                   Some (submit_request u tok (Base64.b64encode file_content) (name chosen))).
    { unfold submit_sends. rewrite Hsel, Hu1. fold chosen in Hread. rewrite Hread, Htok.
      apply String.eqb_neq in Hne. rewrite Hne. reflexivity. }
    rewrite Hreq in Hs. fold st2 in Hs. rewrite Hs1 in Hs.
    destruct Hs as [Hs | [u' [tok' [_ [_ [_ Hs]]]]]]; eexists; exact Hs.
Qed.

Lemma choose_then_submit_witness :
  exists rest,
    sent (exec (submit_file ascii_lower world_other_choice)
            (exec (choose_file world_other_choice) stale_state)) =
    submit_request unpack_url "secret" "UEs=" "archive.zip" :: rest.
Proof.
  edestruct (choose_then_submit ascii_lower world_other_choice stale_state unpack_url "secret"
               ["P"; "K"]%byte) as [_ [_ H]];
    try exact H; first [reflexivity | discriminate].
Defined.

(** ** The payload of an upload *)

Lemma char_of_is_base64 (s : N) : (s < 64)%N -> is_base64_char (Base64.char_of s) = true.
Proof.
  intros H.
  apply (all_below_spec 64 (fun s => is_base64_char (Base64.char_of s)));
    [vm_compute; reflexivity | exact H].
Qed.

Lemma b64encode_is_base64 (data : list byte) :
  forallb is_base64_char (list_ascii_of_string (Base64.b64encode data)) = true.
Proof.
  induction data as [|a|a b|a b c rest IH] using list_ind3.
  - reflexivity.
  - cbn [Base64.b64encode list_ascii_of_string forallb]. rewrite <- to_N_x00.
    rewrite (char_of_is_base64 _ (sextet1_lt a)), (char_of_is_base64 _ (sextet2_lt a x00)).
    reflexivity.
  - cbn [Base64.b64encode list_ascii_of_string forallb]. rewrite <- to_N_x00.
    rewrite (char_of_is_base64 _ (sextet1_lt a)), (char_of_is_base64 _ (sextet2_lt a b)),
      (char_of_is_base64 _ (sextet3_lt b x00)).
    reflexivity.
  - cbn [Base64.b64encode list_ascii_of_string forallb].
    rewrite (char_of_is_base64 _ (sextet1_lt a)), (char_of_is_base64 _ (sextet2_lt a b)),
      (char_of_is_base64 _ (sextet3_lt b c)), (char_of_is_base64 _ (sextet4_lt c)), IH.
    reflexivity.
Qed.

(** X12. Whenever Submit sends something, the first request goes to the
    unpack URL with a timeout of 30 and carries the name of the selected
    file and the encoding of its content: a text of the 64 characters of
    the alphabet and [=] only, four characters for every three bytes. *)
Theorem upload_payload lower w st :
  let st' := exec (submit_file lower w) st in
  sent st' = sent st \/
  exists f file_content u tok rest,
    selected_file st = Some f /\ read_bytes w f = Return file_content /\
    SUPA_UNPACK_API_URL st = Some u /\ getenv w "SUPA_AUTH_TOKEN" = Some tok /\
    sent st' =
    (sent st ++
     {| url := u; headers := auth_headers tok;
        json := PDict [("input", PStr (Base64.b64encode file_content));
                       ("filename", PStr (name f))];
        timeout := 30 |} :: rest)%list /\
    forallb is_base64_char (list_ascii_of_string (Base64.b64encode file_content)) = true /\
    String.length (Base64.b64encode file_content) =
    (4 * ((List.length file_content + 2) / 3))%nat.
Proof.
  intros st'. pose proof (submit_file_sent lower w st) as Hs. fold st' in Hs.
  destruct (submit_sends w st) as [req|] eqn:Hreq; [|left; exact Hs].
  right.
  destruct (submit_sends_inv w st req Hreq)
    as [f0 [u [content0 [tok [Hf [Hu [Hread [Htok [Hne Hr]]]]]]]]].
  assert (Hrest : exists rest, sent st' = (sent st ++ req :: rest)%list).
  { destruct Hs as [Hs | [u' [tok' [_ [_ [_ Hs]]]]]]; eexists; exact Hs. }
  destruct Hrest as [rest Hrest].
  exists f0, content0, u, tok, rest. subst req.
  repeat split; try assumption.
  - apply b64encode_is_base64.
  - apply length_b64encode.
Qed.

Example upload_payload_report :
  sent (exec (submit_file ascii_lower world_500) stale_state) =
  [{| url := unpack_url; headers := auth_headers "secret";
      json := PDict [("input", PStr "JVBERi0xLjQKCg=="); ("filename", PStr "report.pdf")];
      timeout := 30 |}].
Proof. reflexivity. Qed.

(** ** List: more on what it shows *)

Section Listable.

Variable lower : string -> string.

Lemma sort_key_listable f :
  is_listable f = true -> sort_key lower f = Return (lower (name_of f)).
Proof.
  destruct f as [| | | | |d]; try discriminate. unfold is_listable, sort_key, name_of. simpl.
  destruct (dict_lookup d "name") as [[| | |s| |]|]; try discriminate; reflexivity.
Qed.

Lemma keyed_listable items :
  forallb is_listable items = true ->
  keyed (sort_key lower) items = Return (map (decorate lower) items).
Proof.
  induction items as [|f items IH]; simpl; intros H.
  - reflexivity.
  - apply andb_true_iff in H. destruct H as [Hf Hrest].
    rewrite (sort_key_listable f Hf), (IH Hrest). reflexivity.
Qed.

Lemma sorted_listable items :
  forallb is_listable items = true ->
  sorted (PList items) (sort_key lower) = Return (sorted_entries lower items).
Proof. intros H. unfold sorted. simpl. rewrite (keyed_listable items H). reflexivity. Qed.

Lemma file_item_values_listable f :
  is_listable f = true -> file_item_values f = Return (shown_row f).
Proof.
  destruct f as [| | | | |d]; try discriminate.
  unfold is_listable, file_item_values, shown_row, shown_name, shown_size,
    shown_last_modified, metadata_of. simpl.
  destruct (dict_lookup d "name") as [[| | |s| |]|]; try discriminate;
    destruct (dict_lookup d "metadata") as [[| | | | |md]|]; try discriminate; intros _; simpl;
    try destruct (dict_lookup md "size"); try destruct (dict_lookup md "lastModified");
    reflexivity.
Qed.

Lemma for_each_insert_listable l st :
  Forall (fun f => is_listable f = true) l ->
  for_each l insert_file_item st =
  (Return tt, set_file_tree (file_tree st ++ map shown_row l) st).
Proof.
  intros H. revert st. induction H as [|f l Hf Hl IH]; intros st.
  - simpl. unfold ret. rewrite app_nil_r. destruct st; reflexivity.
  - simpl. unfold bind at 1. unfold insert_file_item at 1. unfold bind, lift, modify.
    rewrite (file_item_values_listable f Hf). rewrite IH. simpl. rewrite <- app_assoc.
    reflexivity.
Qed.

Lemma sorted_entries_listable items :
  forallb is_listable items = true ->
  Forall (fun f => is_listable f = true) (sorted_entries lower items).
Proof.
  intros H. eapply Permutation_Forall; [apply sorted_entries_perm|].
  apply Forall_forall. intros f Hf. rewrite forallb_forall in H. auto.
Qed.

End Listable.

Section ListMore.

Variable lower : string -> string.
Variable w : world.
Variables (st : state) (u tok : string).
Hypothesis Hu : SUPA_UNPACK_API_URL st = Some u.
Hypothesis Htok : getenv w "SUPA_AUTH_TOKEN" = Some tok.
Hypothesis Hne : tok <> "".

Let st' := exec (list_files lower w) st.

Ltac follow_list :=
  subst st'; pose proof Hu; pose proof Htok;
  pose proof Hne as Hne'; apply String.eqb_neq in Hne';
  unfold list_request in *; unfold_client; use_hyps.

(** X13. A list request that fails on the network is reported as a
    network error and the tree is left as it was. *)
Theorem list_files_transport_error e :
  post w (sent st) (list_request u tok) = Raise e ->
  is_RequestException (class_of e) = true ->
  ui st' = (ui st ++ [retrieving; Log (list_network_error e);
                      ShowError "Network Error" (list_network_error e)])%list /\
  file_tree st' = file_tree st /\
  sent st' = (sent st ++ [list_request u tok])%list.
Proof.
  intros Hpost Hclass. follow_list. norm_ui. repeat split; reflexivity.
Qed.

Variables (r : response) (data : list (string * value)) (msg : value).
Hypothesis Hpost : post w (sent st) (list_request u tok) = Return r.
Hypothesis Hst : status_code r = 200%Z.
Hypothesis Hjson : json_of r = Return (PDict data).
Hypothesis Hmsg : dict_lookup data "message" = Some msg.

Ltac follow_accepted :=
  pose proof Hpost; pose proof Hjson;
  pose proof Hst as Hst'; apply Z.eqb_eq in Hst';
  assert (Hget : py_getitem (PDict data) "message" = Return msg)
    by (simpl; rewrite Hmsg; reflexivity);
  follow_list.

(** X14. When [files] is there but is nothing to iterate over ([null], a
    number, a boolean), the default does not apply: [sorted] raises after
    the tree was cleared, so the tree ends empty and an unexpected error is
    reported. *)
Theorem list_files_files_not_iterable files e :
  dict_lookup data "files" = Some files -> py_iter files = Raise e ->
  file_tree st' = [] /\
  ui st' = (ui st ++ [retrieving; Log [Val msg]; Log (unexpected_listing_error e);
                      ShowError "Error" (unexpected_listing_error e)])%list.
Proof.
  intros Hfiles Hiter.
  assert (Hclass : class_of e = TypeError).
  { destruct files; simpl in Hiter; try discriminate; injection Hiter as <-; reflexivity. }
  assert (H1 : is_RequestException (class_of e) = false) by (rewrite Hclass; reflexivity).
  assert (H2 : is_JSONDecodeError (class_of e) = false) by (rewrite Hclass; reflexivity).
  assert (H3 : is_Exception (class_of e) = true) by (rewrite Hclass; reflexivity).
  assert (Hf : py_get (PDict data) "files" (PList []) = Return files)
    by (simpl; rewrite Hfiles; reflexivity).
  assert (Hs : sorted files (sort_key lower) = Raise e)
    by (unfold sorted; rewrite Hiter; reflexivity).
  follow_accepted. norm_ui. split; reflexivity.
Qed.

Variable items : list value.
Hypothesis Hfiles : py_get (PDict data) "files" (PList []) = Return (PList items).
Hypothesis Hitems : forallb is_listable items = true.

Lemma list_files_listable_run :
  exists count,
    py_get (PDict data) "count" (PInt 0) = Return count /\
    list_files lower w st =
    (Return tt,
     add_ui (retrieved count)
       (set_file_tree (map shown_row (sorted_entries lower items))
          (add_ui (Log [Val msg])
             (add_sent (list_request u tok) (add_ui retrieving st))))).
Proof.
  assert (Hcount : exists count, py_get (PDict data) "count" (PInt 0) = Return count).
  { simpl. destruct (dict_lookup data "count"); eauto. }
  destruct Hcount as [count Hcount]. exists count. split; [exact Hcount|].
  pose proof (sorted_listable lower items Hitems) as Hsorted.
  pose proof Hfiles.
  pose proof Hpost; pose proof Hjson;
  pose proof Hst as Hst'; apply Z.eqb_eq in Hst';
  assert (Hget : py_getitem (PDict data) "message" = Return msg)
    by (simpl; rewrite Hmsg; reflexivity).
  pose proof Hu; pose proof Htok;
  pose proof Hne as Hne'; apply String.eqb_neq in Hne'.
  unfold list_request, retrieved, retrieving in *. unfold_client. use_hyps.
  rewrite (for_each_insert_listable _ _ (sorted_entries_listable lower items Hitems)).
  use_hyps. reflexivity.
Qed.

(** X15. Entries are shown with defaults: an entry without [name] is shown
    as N/A but sorted as the empty name, so before every named entry; an
    entry without [metadata], or without a field of it, shows the size 0
    and N/A for the date.  The tree is the rows of the entries in the
    stable order of their lowered names. *)
Theorem list_files_shows_defaults :
  exists shown,
    file_tree st' = map shown_row shown /\
    Permutation items shown /\
    StronglySorted (name_le lower) shown /\
    (forall k, filter (named lower k) shown = filter (named lower k) items).
Proof.
  destruct list_files_listable_run as [count [_ E]].
  exists (sorted_entries lower items). split; [|split; [|split]].
  - subst st'. unfold exec. rewrite E. reflexivity.
  - apply sorted_entries_perm.
  - apply sorted_entries_sorted.
  - intros k. apply sorted_entries_stable.
Qed.

(** X16. After a listing [list_files] shows no message box; it logs the
    [message] of the server and the [count] the server sent (0 when there
    is none), whatever the number of entries it inserted. *)
Theorem list_files_logs_server_count :
  exists count,
    py_get (PDict data) "count" (PInt 0) = Return count /\
    ui st' = (ui st ++ [retrieving; Log [Val msg]; retrieved count])%list /\
    List.length (file_tree st') = List.length items.
Proof.
  destruct list_files_listable_run as [count [Hc E]].
  exists count. split; [exact Hc|]. subst st'. unfold exec. rewrite E. split.
  - simpl. norm_ui. reflexivity.
  - cbn [snd file_tree add_ui set_file_tree]. rewrite length_map.
    symmetry. apply Permutation_length, sorted_entries_perm.
Qed.

End ListMore.

Lemma list_files_transport_error_witness :
  file_tree (exec (list_files ascii_lower world_offline) stale_state) =
  file_tree stale_state.
Proof.
  edestruct (list_files_transport_error ascii_lower world_offline stale_state unpack_url
               "secret") as [_ [H _]];
    try exact H; first [reflexivity | discriminate].
Defined.

Lemma list_files_files_not_iterable_witness :
  file_tree (exec (list_files ascii_lower world_null_files) stale_state) = [].
Proof.
  edestruct (list_files_files_not_iterable ascii_lower world_null_files stale_state
               unpack_url "secret" eq_refl eq_refl ltac:(discriminate)
               (ok_json "{...}"
                  (PDict [("message", PStr "ok"); ("files", PNone); ("count", PInt 0)]))
               [("message", PStr "ok"); ("files", PNone); ("count", PInt 0)]
               (PStr "ok") eq_refl eq_refl eq_refl eq_refl PNone none_not_iterable)
    as [H _];
    try exact H; reflexivity.
Defined.

Lemma list_files_shows_defaults_witness :
  exists shown,
    file_tree (exec (list_files ascii_lower world_bare_entry) stale_state) =
    map shown_row shown /\
    Permutation [sample_entry "b.txt" 1; PDict []; PDict [("name", PStr "a.txt")]] shown /\
    StronglySorted (name_le ascii_lower) shown /\
    (forall k, filter (named ascii_lower k) shown =
               filter (named ascii_lower k)
                 [sample_entry "b.txt" 1; PDict []; PDict [("name", PStr "a.txt")]]).
Proof.
  eapply (list_files_shows_defaults ascii_lower world_bare_entry stale_state unpack_url
            "secret" eq_refl eq_refl ltac:(discriminate) _ _ (PStr "ok"));
    reflexivity.
Defined.

Example list_files_bare_entry :
  file_tree (exec (list_files ascii_lower world_bare_entry) stale_state) =
  [{| row_name := PStr "N/A"; row_size := PInt 0; row_last_modified := PStr "N/A" |};
   {| row_name := PStr "a.txt"; row_size := PInt 0; row_last_modified := PStr "N/A" |};
   sample_row "b.txt" 1].
Proof. reflexivity. Qed.

Lemma list_files_logs_server_count_witness :
  exists count,
    ui (exec (list_files ascii_lower world_bare_entry) stale_state) =
    [retrieving; Log [Val (PStr "ok")]; retrieved count] /\
    count = PInt 7 /\
    List.length (file_tree (exec (list_files ascii_lower world_bare_entry) stale_state)) =
    3%nat.
Proof.
  edestruct (list_files_logs_server_count ascii_lower world_bare_entry stale_state unpack_url
               "secret" eq_refl eq_refl ltac:(discriminate)
               (ok_json "{...}" (PDict bare_listing)) bare_listing (PStr "ok")
               eq_refl eq_refl eq_refl eq_refl
               [sample_entry "b.txt" 1; PDict []; PDict [("name", PStr "a.txt")]]
               eq_refl eq_refl) as [count [Hc [Hui Hlen]]].
  exists count. split; [exact Hui|]. split; [|exact Hlen].
  injection Hc as <-. reflexivity.
Defined.

(** ** Operations one after the other *)

Lemma list_accepts_ext w st st' :
  SUPA_UNPACK_API_URL st' = SUPA_UNPACK_API_URL st ->
  (forall q, post w (sent st') q = post w (sent st) q) ->
  list_accepts w st' = list_accepts w st.
Proof.
  intros Hu Hpost. unfold list_accepts. rewrite Hu.
  destruct (SUPA_UNPACK_API_URL st); [|reflexivity].
  destruct (getenv w "SUPA_AUTH_TOKEN"); [|reflexivity].
  rewrite Hpost. reflexivity.
Qed.

(** X17. Refreshing twice shows what refreshing once shows, when the
    server answers the second list request as it answered the first: the
    second run rebuilds the same tree, whether the first one succeeded,
    failed before the tree was touched, or failed half way. *)
Theorem list_files_twice lower w st :
  let st1 := exec (list_files lower w) st in
  (forall q, post w (sent st1) q = post w (sent st) q) ->
  file_tree (exec (list_files lower w) st1) = file_tree st1.
Proof.
  intros st1 Hpost.
  assert (Hu : SUPA_UNPACK_API_URL st1 = SUPA_UNPACK_API_URL st)
    by apply (list_files_globals lower w st).
  destruct (list_accepts w st) eqn:Hacc.
  - transitivity (file_tree (exec (list_files lower w) (set_file_tree (file_tree st1) st))).
    + apply list_files_tree_ext; try reflexivity; assumption.
    + apply list_files_forgets_old_tree, Hacc.
  - rewrite list_files_tree_unchanged; [reflexivity|].
    rewrite (list_accepts_ext w st st1 Hu Hpost). exact Hacc.
Qed.

Lemma list_files_twice_witness :
  file_tree (exec (list_files ascii_lower world_second_entry_bad)
               (exec (list_files ascii_lower world_second_entry_bad) stale_state)) =
  file_tree (exec (list_files ascii_lower world_second_entry_bad) stale_state).
Proof.
  apply (list_files_twice ascii_lower world_second_entry_bad stale_state).
  intros q. reflexivity.
Defined.

(** ** A download after a listing *)

Lemma given_back_nth int rows items i r :
  Forall2 (given_back int) rows items -> nth_error rows i = Some r ->
  exists item, nth_error items i = Some item /\ given_back int r item.
Proof.
  intros H. revert i. induction H as [|r' item' l l' Hr Hl IH]; intros [|i] Hnth;
    try discriminate.
  - injection Hnth as <-. exists item'. split; [reflexivity | exact Hr].
  - apply (IH i Hnth).
Qed.

(** X18. A double click on a row of a fresh listing asks the main URL, with
    a timeout of 60, for the name of the entry at that position of the
    sorted listing as the widget gives it back: for the text of the name
    where [int] does not take it, and for the integer it reads as where
    [int] does.  Nothing is asked for a name that is empty or reads as
    0. *)
Theorem download_after_list lower int w st u m tok r data msg items i f st2 :
  SUPA_UNPACK_API_URL st = Some u ->
  SUPA_MAIN_API_URL st = Some m ->
  getenv w "SUPA_AUTH_TOKEN" = Some tok -> tok <> "" ->
  post w (sent st) (list_request u tok) = Return r ->
  status_code r = 200%Z ->
  json_of r = Return (PDict data) ->
  dict_lookup data "message" = Some msg ->
  py_get (PDict data) "files" (PList []) = Return (PList items) ->
  forallb is_entry items = true ->
  nth_error (sorted_entries lower items) i = Some f ->
  let st1 := exec (list_files lower w) st in
  SUPA_MAIN_API_URL st2 = SUPA_MAIN_API_URL st1 ->
  sent st2 = sent st1 ->
  Forall2 (given_back int) (file_tree st1) (file_tree st2) ->
  let asked := convert_stringval int (name_of f) in
  sent (exec (download_file w (Some i)) st2) =
  (sent st ++ list_request u tok ::
     (if py_not asked then []
      else [{| url := m; headers := auth_headers tok;
               json := PDict [("download", asked)]; timeout := 60 |}]))%list.
Proof.
  intros Hu Hm Htok Hne Hpost Hst Hjson Hmsg Hfiles Hent Hnth st1 Hm2 Hs2 Hback asked.
  destruct (rows_of_sorted_entries lower items Hent) as [rows Hrows].
  destruct (list_files_ok lower w st u tok r data msg items rows
              Hu Htok Hne Hpost Hst Hjson Hmsg Hfiles Hent Hrows) as [count [_ E]].
  assert (Hst1 : st1 = add_ui (Log [Lit "Retrieved "; Val count; Lit " files."])
                         (set_file_tree rows
                            (add_ui (Log [Val msg])
                               (add_sent (list_request u tok)
                                  (add_ui (Log [Lit "Retrieving list of files..."]) st))))).
  { subst st1. unfold exec. rewrite E. reflexivity. }
  assert (Hrow : exists row, nth_error rows i = Some row /\ row_name row = PStr (name_of f)).
  { clear - Hnth Hrows. revert i Hnth.
    induction Hrows as [|f' r' l l' [_ Hr] Hl IH]; intros [|i] Hnth; try discriminate.
    - injection Hnth as <-. exists r'. split; [reflexivity | exact Hr].
    - apply (IH i Hnth). }
  destruct Hrow as [row [Hrow Hrn]].
  rewrite Hst1 in Hm2, Hs2, Hback. simpl_state.
  destruct (given_back_nth int rows (file_tree st2) i row Hback Hrow) as [item [Hitem Hgb]].
  assert (Hid : identify (file_tree st2) (Some i) = Some item) by exact Hitem.
  assert (Hname : row_name item = asked) by (apply Hgb, Hrn).
  assert (Hm2' : SUPA_MAIN_API_URL st2 = Some m) by (rewrite Hm2; exact Hm).
  apply String.eqb_neq in Hne.
  clearbody st1 asked. clear Hst1 E.
  unfold_client. use_hyps. rewrite Hname.
  destruct (py_not asked) eqn:Hnot; simpl_state.
  - rewrite Hs2. reflexivity.
  - use_hyps.
    repeat (simpl_state; split_step); simpl_state;
      rewrite ?Hs2, <- ?app_assoc; reflexivity.
Qed.

Lemma download_after_list_witness :
  sent (exec (download_file world_year_names (Some 1%nat))
          (set_file_tree year_rows
             (exec (list_files ascii_lower world_year_names) stale_state))) =
  [list_request unpack_url "secret";
   {| url := main_url; headers := auth_headers "secret";
      json := PDict [("download", PInt 2024)]; timeout := 60 |}].
Proof.
  apply (download_after_list ascii_lower int_of_digits world_year_names stale_state
           unpack_url main_url "secret"
           (listing [sample_entry "b.txt" 1; sample_entry "2024" 2; sample_entry "0" 3])
           [("message", PStr "ok");
            ("files", PList [sample_entry "b.txt" 1; sample_entry "2024" 2;
                             sample_entry "0" 3]);
            ("count", PInt 3)]
           (PStr "ok")
           [sample_entry "b.txt" 1; sample_entry "2024" 2; sample_entry "0" 3]
           1 (sample_entry "2024" 2));
    try first [reflexivity | discriminate].
  repeat constructor; intros s [= <-]; reflexivity.
Defined.

(** The same double click on the row of the file named 0 only writes a
    log line, and the one on [b.txt] asks for the text. *)
Example download_of_names_that_read_as_numbers :
  let st1 := exec (list_files ascii_lower world_year_names) stale_state in
  let st2 := set_file_tree year_rows st1 in
  file_tree st1 = [sample_row "0" 3; sample_row "2024" 2; sample_row "b.txt" 1] /\
  exec (download_file world_year_names (Some 0%nat)) st2 =
  add_ui (Log [Lit "No file selected for download."]) st2 /\
  sent (exec (download_file world_year_names (Some 2%nat)) st2) =
  [list_request unpack_url "secret";
   {| url := main_url; headers := auth_headers "secret";
      json := PDict [("download", PStr "b.txt")]; timeout := 60 |}].
Proof. repeat split. Qed.

(** ** main *)

(** X19. With the three variables set and not empty, [main] returns with
    the two URLs stored, no file selected and an empty tree; it shows no
    message box and sends nothing.  The token is only checked: it is read
    again by every operation. *)
Theorem main_configured w st u m tok :
  getenv w "SUPA_UNPACK_API_URL" = Some u -> u <> "" ->
  getenv w "SUPA_MAIN_API_URL" = Some m -> m <> "" ->
  getenv w "SUPA_AUTH_TOKEN" = Some tok -> tok <> "" ->
  let st' := exec (main w) st in
  result (main w) st = Return tt /\
  selected_file st' = None /\
  SUPA_UNPACK_API_URL st' = Some u /\ SUPA_MAIN_API_URL st' = Some m /\
  file_tree st' = [] /\
  ui st' = (ui st ++ startup_log)%list /\
  sent st' = sent st.
Proof.
  intros Hu Hune Hm Hmne Htok Htne st'. subst st'.
  apply String.eqb_neq in Hune, Hmne, Htne.
  unfold_main. use_hyps. cbn [orb]. use_hyps. unfold startup_log. norm_ui.
  repeat split; reflexivity.
Qed.

Lemma main_configured_witness :
  SUPA_UNPACK_API_URL (exec (main world_three_files) initial_state) = Some unpack_url /\
  SUPA_MAIN_API_URL (exec (main world_three_files) initial_state) = Some main_url.
Proof.
  edestruct (main_configured world_three_files initial_state unpack_url main_url "secret")
    as [_ [_ [H1 [H2 _]]]];
    try (split; [exact H1 | exact H2]); first [reflexivity | discriminate].
Defined.

(** X20. [main] looks at all three variables before it gives up: every
    one that is missing or empty gets its own error box, then the box that
    announces the exit, and the process exits with status 1 without having
    sent anything. *)
Theorem main_reports_every_missing w st var :
  consumed var -> not_str (getenv w var) = true ->
  let st' := exec (main w) st in
  result (main w) st = Raise exit_1 /\
  In (ShowError "Configuration Error" [Lit (startup_error var)]) (ui st') /\
  last (ui st') exiting = exiting /\
  sent st' = sent st.
Proof.
  intros Hc H st'. subst st'. revert H.
  destruct Hc as [-> | [-> | ->]]; unfold_main;
    repeat (simpl_state; cbn [orb]; split_step); cbn [orb]; simpl_state;
    intros H; try discriminate H; try congruence;
    (split; [reflexivity|]);
    (split; [norm_ui; apply in_or_app; right; cbn [In]; auto 20|]);
    (split; [apply last_last | reflexivity]).
Qed.

Lemma main_reports_every_missing_witness :
  In (ShowError "Configuration Error" [Lit (startup_error "SUPA_AUTH_TOKEN")])
    (ui (exec (main world_only_main_url) initial_state)) /\
  In (ShowError "Configuration Error" [Lit (startup_error "SUPA_UNPACK_API_URL")])
    (ui (exec (main world_only_main_url) initial_state)).
Proof.
  split.
  - apply (main_reports_every_missing world_only_main_url initial_state "SUPA_AUTH_TOKEN");
      [left; reflexivity | reflexivity].
  - apply (main_reports_every_missing world_only_main_url initial_state "SUPA_UNPACK_API_URL");
      [right; left; reflexivity | reflexivity].
Defined.

(** ** What an operation does to the outside *)

Lemma choose_file_outside w st :
  save_dialogs (exec (choose_file w) st) = save_dialogs st /\
  written (exec (choose_file w) st) = written st.
Proof. crunch; auto. Qed.

Lemma download_file_outside w event st :
  (written (exec (download_file w event) st) = written st /\
   save_dialogs (exec (download_file w event) st) = save_dialogs st) \/
  exists item u tok r,
    identify (file_tree st) event = Some item /\
    SUPA_MAIN_API_URL st = Some u /\ getenv w "SUPA_AUTH_TOKEN" = Some tok /\
    post w (sent st) (download_request u tok (row_name item)) = Return r /\
    status_code r = 200%Z /\
    save_dialogs (exec (download_file w event) st) =
    (save_dialogs st ++ [row_name item])%list /\
    (written (exec (download_file w event) st) = written st \/
     written (exec (download_file w event) st) =
     (written st ++ [({| path_str := asksaveasfilename w (row_name item) |}, content r)])%list).
Proof.
  crunch;
    first [ left; split; reflexivity
          | right; do 4 eexists; split; [reflexivity|];
            split; [reflexivity|]; split; [reflexivity|];
            split; [eassumption|];
            split; [apply Z.eqb_eq; eassumption|];
            split; [reflexivity|];
            first [left; reflexivity | right; reflexivity] ].
Qed.

(** X21. Files are written by Download only, and at most one at a time:
    no other operation opens a save dialog or writes; a Download opens the
    dialog and writes only when its request for the row under the pointer
    was answered with a 200, and what it writes is the content of that
    answer, unchanged, at the path the dialog gave. *)
Theorem only_download_writes lower w a st :
  let st' := exec (callback lower w a) st in
  (written st' = written st /\ save_dialogs st' = save_dialogs st) \/
  exists event item u tok r,
    a = DoubleClick event /\
    identify (file_tree st) event = Some item /\
    SUPA_MAIN_API_URL st = Some u /\ getenv w "SUPA_AUTH_TOKEN" = Some tok /\
    post w (sent st) (download_request u tok (row_name item)) = Return r /\
    status_code r = 200%Z /\
    save_dialogs st' = (save_dialogs st ++ [row_name item])%list /\
    (written st' = written st \/
     written st' =
     (written st ++ [({| path_str := asksaveasfilename w (row_name item) |}, content r)])%list).
Proof.
  destruct a; cbn [callback].
  - left. destruct (choose_file_outside w st). split; assumption.
  - left. destruct (submit_file_outside lower w st). split; assumption.
  - left. destruct (list_files_outside lower w st). split; assumption.
  - destruct (download_file_outside w event st) as [H | [item [u [tok [r H]]]]].
    + left. exact H.
    + right. exists event, item, u, tok, r. split; [reflexivity | exact H].
Qed.

(** ** The requests of an operation *)

(** X22. One operation sends at most two requests, and two only for a
    Submit that is followed by its listing; choosing a file sends none.
    Each request carries the token of the environment as bearer and goes
    to the unpack URL with a timeout of 30, or, for a Download, to the main
    URL with a timeout of 60. *)
Theorem callback_requests lower w a st :
  exists new,
    sent (exec (callback lower w a) st) = (sent st ++ new)%list /\
    (List.length new <= most_requests a)%nat /\
    Forall (addressed w st) new.
Proof.
  assert (Hunpack : forall u tok j,
            SUPA_UNPACK_API_URL st = Some u -> getenv w "SUPA_AUTH_TOKEN" = Some tok ->
            addressed w st {| url := u; headers := auth_headers tok; json := j;
                              timeout := 30 |}).
  { intros u tok j Hu Ht. exists tok. split; [exact Ht|]. split; [reflexivity|].
    left. split; [exact Hu | reflexivity]. }
  destruct a; cbn [callback most_requests].
  - exists []. rewrite app_nil_r.
    split; [apply choose_file_frame | split; [simpl; lia | constructor]].
  - pose proof (submit_file_sent lower w st) as H.
    destruct (submit_sends w st) as [req|] eqn:Hs.
    + destruct (submit_sends_inv w st req Hs)
        as [f [u [file_content [tok [Hf [Hu [Hread [Htok [Hne Hr]]]]]]]]].
      assert (Hok : addressed w st req) by (subst req; apply Hunpack; assumption).
      destruct H as [H | [u' [tok' [Eu [Et [_ H]]]]]].
      * exists [req]. split; [exact H|]. split; [simpl; lia|].
        constructor; [exact Hok | constructor].
      * exists [req; list_request u' tok']. split; [exact H|]. split; [simpl; lia|].
        constructor; [exact Hok|]. constructor; [|constructor].
        apply Hunpack; assumption.
    + exists []. rewrite app_nil_r. split; [exact H|]. split; [simpl; lia | constructor].
  - destruct (list_files_sent lower w st) as [H | [u [tok [Eu [Et [_ H]]]]]].
    + exists []. rewrite app_nil_r. split; [exact H|]. split; [simpl; lia | constructor].
    + exists [list_request u tok]. split; [exact H|]. split; [simpl; lia|].
      constructor; [|constructor]. apply Hunpack; assumption.
  - destruct (download_file_sent w event st) as [H | [u [tok [item [Eu [Et [_ H]]]]]]].
    + exists []. rewrite app_nil_r. split; [exact H|]. split; [simpl; lia | constructor].
    + eexists [_]. split; [exact H|]. split; [simpl; lia|].
      constructor; [|constructor].
      exists tok. split; [exact Et|]. split; [reflexivity|].
      right. split; [exact Eu | reflexivity].
Qed.

(** ** List: bodies and entries of another shape *)

Lemma py_getitem_not_dict v k :
  (forall d, v <> PDict d) -> exists e, py_getitem v k = Raise e /\ class_of e = TypeError.
Proof.
  intros H. destruct v; simpl; eauto. exfalso. apply (H fields). reflexivity.
Qed.

Lemma keyed_raises lower items e :
  keyed (sort_key lower) items = Raise e -> class_of e = AttributeError.
Proof.
  induction items as [|f items IH]; simpl; [discriminate|].
  destruct (sort_key lower f) as [k|e'] eqn:Hk.
  - destruct (keyed (sort_key lower) items); [discriminate|].
    intros [= <-]. apply IH. reflexivity.
  - intros [= <-]. revert Hk. unfold sort_key, py_get.
    destruct f; try (intros [= <-]; reflexivity).
    destruct (dict_lookup fields "name") as [[| | | | |]|]; try discriminate;
      intros [= <-]; reflexivity.
Qed.

Lemma file_item_values_raises f e :
  file_item_values f = Raise e -> class_of e = AttributeError.
Proof.
  unfold file_item_values, py_get.
  destruct f; try (intros [= <-]; reflexivity).
  destruct (dict_lookup fields "name"); (destruct (dict_lookup fields "metadata") as [[| | | | |md]|];
    try (intros [= <-]; reflexivity);
    try (destruct (dict_lookup md "size"); destruct (dict_lookup md "lastModified"); discriminate);
    try discriminate).
Qed.

Lemma for_each_insert_until l1 bad l2 e st :
  Forall (fun f => is_listable f = true) l1 ->
  file_item_values bad = Raise e ->
  for_each (l1 ++ bad :: l2) insert_file_item st =
  (Raise e, set_file_tree (file_tree st ++ map shown_row l1) st).
Proof.
  intros H Hbad. revert st. induction H as [|f l Hf Hl IH]; intros st.
  - simpl. unfold bind at 1. unfold insert_file_item at 1. unfold bind, lift, modify.
    rewrite Hbad. rewrite app_nil_r. destruct st; reflexivity.
  - simpl. unfold bind at 1. unfold insert_file_item at 1. unfold bind, lift, modify.
    rewrite (file_item_values_listable f Hf). rewrite IH. simpl. rewrite <- app_assoc.
    reflexivity.
Qed.

Section ListShapes.

Variable lower : string -> string.
Variable w : world.
Variables (st : state) (u tok : string) (r : response).
Hypothesis Hu : SUPA_UNPACK_API_URL st = Some u.
Hypothesis Htok : getenv w "SUPA_AUTH_TOKEN" = Some tok.
Hypothesis Hne : tok <> "".
Hypothesis Hpost : post w (sent st) (list_request u tok) = Return r.
Hypothesis Hst : status_code r = 200%Z.

Let st' := exec (list_files lower w) st.

Ltac follow_200 :=
  subst st'; pose proof Hu; pose proof Htok; pose proof Hpost;
  pose proof Hne as Hne'; apply String.eqb_neq in Hne';
  pose proof Hst as Hst'; apply Z.eqb_eq in Hst';
  unfold list_request in *; unfold_client; use_hyps.

(** X23. A 200 whose body is valid JSON but not an object (an array, a
    string, a number, [null]) is not taken as an invalid response: reading
    its [message] raises, an unexpected error is reported, and the tree is
    left as it was. *)
Theorem list_files_body_not_object v :
  json_of r = Return v -> (forall d, v <> PDict d) ->
  exists e,
    py_getitem v "message" = Raise e /\ class_of e = TypeError /\
    ui st' = (ui st ++ [retrieving; Log (unexpected_listing_error e);
                        ShowError "Error" (unexpected_listing_error e)])%list /\
    file_tree st' = file_tree st.
Proof.
  intros Hjson Hv. destruct (py_getitem_not_dict v "message" Hv) as [e [He Hc]].
  exists e. split; [exact He|]. split; [exact Hc|].
  assert (H1 : is_RequestException (class_of e) = false) by (rewrite Hc; reflexivity).
  assert (H2 : is_JSONDecodeError (class_of e) = false) by (rewrite Hc; reflexivity).
  assert (H3 : is_Exception (class_of e) = true) by (rewrite Hc; reflexivity).
  follow_200. norm_ui. split; reflexivity.
Qed.

Variables (data : list (string * value)) (msg : value) (items : list value).
Hypothesis Hjson : json_of r = Return (PDict data).
Hypothesis Hmsg : dict_lookup data "message" = Some msg.
Hypothesis Hfiles : py_get (PDict data) "files" (PList []) = Return (PList items).

Ltac follow_items :=
  pose proof Hjson; pose proof Hfiles;
  assert (Hget : py_getitem (PDict data) "message" = Return msg)
    by (simpl; rewrite Hmsg; reflexivity);
  follow_200.

(** X24. The keys of all entries are computed before anything is
    inserted: when one entry is not an object, or has a [name] that is not
    a string, the tree ends empty, without a row even for the good
    entries, and an unexpected error is reported. *)
Theorem list_files_unsortable_entry e :
  keyed (sort_key lower) items = Raise e ->
  file_tree st' = [] /\
  ui st' = (ui st ++ [retrieving; Log [Val msg]; Log (unexpected_listing_error e);
                      ShowError "Error" (unexpected_listing_error e)])%list.
Proof.
  intros Hk. pose proof (keyed_raises lower items e Hk) as Hc.
  assert (Hs : sorted (PList items) (sort_key lower) = Raise e)
    by (unfold sorted; simpl; rewrite Hk; reflexivity).
  assert (H1 : is_RequestException (class_of e) = false) by (rewrite Hc; reflexivity).
  assert (H2 : is_JSONDecodeError (class_of e) = false) by (rewrite Hc; reflexivity).
  assert (H3 : is_Exception (class_of e) = true) by (rewrite Hc; reflexivity).
  follow_items. norm_ui. split; reflexivity.
Qed.

(** X25. When the entries can be sorted but the row of one of them cannot
    be built (its [metadata] is not an object), the tree ends with the rows
    of the entries that come before it in the sorted order, and the error
    is reported. *)
Theorem list_files_stops_at_bad_entry ks before bad after e :
  keyed (sort_key lower) items = Return ks ->
  map snd (sort_keyed ks) = (before ++ bad :: after)%list ->
  forallb is_listable before = true ->
  file_item_values bad = Raise e ->
  file_tree st' = map shown_row before /\
  ui st' = (ui st ++ [retrieving; Log [Val msg]; Log (unexpected_listing_error e);
                      ShowError "Error" (unexpected_listing_error e)])%list.
Proof.
  intros Hk Hsplit Hbefore Hbad.
  pose proof (file_item_values_raises bad e Hbad) as Hc.
  assert (Hs : sorted (PList items) (sort_key lower) = Return (before ++ bad :: after)%list)
    by (unfold sorted; simpl; rewrite Hk, Hsplit; reflexivity).
  assert (H1 : is_RequestException (class_of e) = false) by (rewrite Hc; reflexivity).
  assert (H2 : is_JSONDecodeError (class_of e) = false) by (rewrite Hc; reflexivity).
  assert (H3 : is_Exception (class_of e) = true) by (rewrite Hc; reflexivity).
  assert (Hall : Forall (fun f => is_listable f = true) before).
  { apply Forall_forall. intros f Hf. rewrite forallb_forall in Hbefore. auto. }
  follow_items. rewrite (for_each_insert_until before bad after e _ Hall Hbad).
  use_hyps. norm_ui. split; reflexivity.
Qed.

End ListShapes.

Lemma list_files_body_not_object_witness :
  file_tree (exec (list_files ascii_lower world_array_body) stale_state) =
  file_tree stale_state.
Proof.
  edestruct (list_files_body_not_object ascii_lower world_array_body stale_state unpack_url
               "secret" (ok_json "[]" (PList [])) eq_refl eq_refl ltac:(discriminate)
               eq_refl eq_refl (PList [])) as [e [_ [_ [_ H]]]];
    try exact H; first [reflexivity | discriminate].
Defined.

Lemma list_files_unsortable_entry_witness :
  file_tree (exec (list_files ascii_lower world_numeric_name) stale_state) = [].
Proof.
  edestruct (list_files_unsortable_entry ascii_lower world_numeric_name stale_state unpack_url
               "secret"
               (listing [sample_entry "a.txt" 1; PDict [("name", PInt 7)]])
               eq_refl eq_refl ltac:(discriminate) eq_refl eq_refl
               [("message", PStr "ok");
                ("files", PList [sample_entry "a.txt" 1; PDict [("name", PInt 7)]]);
                ("count", PInt 2)]
               (PStr "ok") [sample_entry "a.txt" 1; PDict [("name", PInt 7)]]
               eq_refl eq_refl eq_refl) as [H _];
    try exact H; reflexivity.
Defined.

Lemma list_files_stops_at_bad_entry_witness :
  file_tree (exec (list_files ascii_lower world_second_entry_bad) stale_state) =
  map shown_row [sample_entry "a.txt" 1].
Proof.
  edestruct (list_files_stops_at_bad_entry ascii_lower world_second_entry_bad stale_state
               unpack_url "secret"
               (listing [sample_entry "a.txt" 1;
                         PDict [("name", PStr "b.txt"); ("metadata", PNone)]])
               eq_refl eq_refl ltac:(discriminate) eq_refl eq_refl
               [("message", PStr "ok");
                ("files", PList [sample_entry "a.txt" 1;
                                 PDict [("name", PStr "b.txt"); ("metadata", PNone)]]);
                ("count", PInt 2)]
               (PStr "ok")
               [sample_entry "a.txt" 1; PDict [("name", PStr "b.txt"); ("metadata", PNone)]]
               eq_refl eq_refl eq_refl
               [("a.txt", sample_entry "a.txt" 1);
                ("b.txt", PDict [("name", PStr "b.txt"); ("metadata", PNone)])]
               [sample_entry "a.txt" 1]
               (PDict [("name", PStr "b.txt"); ("metadata", PNone)]) []
               none_has_no_get) as [H _];
    try exact H; reflexivity.
Defined.
